(** * sls-ts-plugin: the compilation orchestrator of [src/utils.ts]

    A shallow embedding of [extractFileNames], [run], [getSourceFiles],
    [getTypescriptConfig] and [makeDefaultTypescriptConfig], with the
    JavaScript string primitives they use, and the properties of the
    orchestrator stated over it.

    The collaborators the module imports (Node's [path], [fs-extra],
    [JSON], the TypeScript compiler API) are interfaces here: every theorem
    holds for all their implementations, and [Module Fixture] instantiates
    them to run the code on concrete projects. *)

From Stdlib Require Import ZArith Ascii String DecimalString QArith.
From stdpp Require Import base option list strings gmap.

Local Open Scope Z_scope.
Set Warnings "-register-all".

(** ** JavaScript strings

    A JavaScript string is a sequence of code units; [string] stands for
    it, one character per code unit. *)
Module JsString.

(** [s.split(sep)] for a one-character separator: the pieces between the
    occurrences of [sep], so that [n] occurrences give [n + 1] pieces and
    the empty string gives one empty piece. *)
Fixpoint split (sep : ascii) (s : string) : list string :=
  match s with
  | EmptyString => [EmptyString]
  | String c s' =>
      if Ascii.eqb c sep then EmptyString :: split sep s'
      else match split sep s' with
           | piece :: pieces => String c piece :: pieces
           | [] => [String c EmptyString]
           end
  end.

(** The largest index at or after [i] (the index of the head of [s])
    at which [needle] occurs in [s]. *)
Fixpoint lastIndexOf_from (needle s : string) (i : nat) : option nat :=
  match s with
  | EmptyString => if String.prefix needle s then Some i else None
  | String _ s' =>
      match lastIndexOf_from needle s' (S i) with
      | Some j => Some j
      | None => if String.prefix needle s then Some i else None
      end
  end.

(** [s.lastIndexOf(needle)]: the index of the rightmost occurrence,
    [-1] when there is none. *)
Definition lastIndexOf (s needle : string) : Z :=
  match lastIndexOf_from needle s 0 with
  | Some j => Z.of_nat j
  | None => -1
  end.

Definition clamp (len x : Z) : Z := Z.min (Z.max x 0) len.

(** [s.substring(start, end)]: both indices are clamped to
    [0 .. s.length] and swapped when [start > end]. *)
Definition substring (s : string) (start end_ : Z) : string :=
  let len := Z.of_nat (String.length s) in
  let a := clamp len start in
  let b := clamp len end_ in
  let from := Z.min a b in
  let to := Z.max a b in
  String.substring (Z.to_nat from) (Z.to_nat (to - from)) s.

(** [s.slice(start, end)]: a negative index counts from the end. *)
Definition slice (s : string) (start end_ : Z) : string :=
  let len := Z.of_nat (String.length s) in
  let from := if start <? 0 then Z.max (len + start) 0 else Z.min start len in
  let to := if end_ <? 0 then Z.max (len + end_) 0 else Z.min end_ len in
  String.substring (Z.to_nat from) (Z.to_nat (Z.max (to - from) 0)) s.

(** [s.endsWith(suffix)]. *)
Definition endsWith (s suffix : string) : bool :=
  let n := String.length s in
  let m := String.length suffix in
  if (m <=? n)%nat then String.eqb (String.substring (n - m) m s) suffix
  else false.

(** [s.replace(/\.js$/, ".ts")]: the pattern is anchored at the end of
    the input, so it matches at most once, at the final [".js"]. *)
Definition replace_js_at_end (s : string) : string :=
  if endsWith s ".js"
  then slice s 0 (-3) +:+ ".ts"
  else s.

(** A number in a template literal; the numbers printed here are
    integers. *)
Definition of_number (n : Z) : string := NilZero.string_of_int (Z.to_int n).

(** Truthiness of a string: only the empty string is falsy. *)
Definition truthy (s : string) : bool := negb (String.eqb s EmptyString).

(** Does the character occur in the string. *)
Fixpoint has_char (c : ascii) (s : string) : bool :=
  match s with
  | EmptyString => false
  | String c' s' => Ascii.eqb c' c || has_char c s'
  end.

Definition dquote : string := String (ascii_of_nat 34) EmptyString.

Definition newline : string := String (ascii_of_nat 10) EmptyString.

End JsString.

(** ** Data model *)

(** A value produced by [JSON.parse]. An object keeps its members in
    order, each key once. *)
Inductive json : Type :=
  | JNull
  | JBool (b : bool)
  | JNumber (q : Q)
  | JString (s : string)
  | JArray (items : list json)
  | JObject (members : list (string * json)).

(** What a [throw] carries: [Error] is [new Error(message)], the only
    exception [utils.ts] raises itself; the others come from the runtime
    and the libraries. *)
Inductive exn : Type :=
  | Error (message : string)
  | TypeError (message : string)
  | SyntaxError (message : string)
  | SystemError (code : string).

(** The compiler API's data, as far as [utils.ts] reads it. *)
Module ts.

Inductive ModuleKind : Set :=
  | ModuleNone | CommonJS | AMD | UMD | System | ES2015Module | ES2020Module | ESNextModule.

Inductive ScriptTarget : Set :=
  | ES3 | ES5 | ES2015 | ES2016 | ES2017 | ES2018 | ES2019 | ES2020 | ESNext.

Inductive ModuleResolutionKind : Set := Classic | NodeJs.

(** The value of one compiler option. *)
Inductive CompilerOptionsValue : Type :=
  | VBool (b : bool)
  | VString (s : string)
  | VNumber (n : Z)
  | VStrings (l : list string)
  | VModuleKind (m : ModuleKind)
  | VScriptTarget (t : ScriptTarget)
  | VModuleResolutionKind (r : ModuleResolutionKind).

(** [CompilerOptions]: an object used as a map from option names to
    values. *)
Abbreviation CompilerOptions := (gmap string CompilerOptionsValue).

Record LineAndCharacter : Set := { line : Z; character : Z }.

Record SourceFile : Type := {
  fileName : string;
  getLineAndCharacterOfPosition : Z -> LineAndCharacter
}.

Inductive DiagnosticCategory : Set := Warning | Error | Suggestion | Message.

Inductive DiagnosticMessageChain : Type :=
  | MessageChain (text : string) (next : list DiagnosticMessageChain).

Record Diagnostic : Type := {
  category : DiagnosticCategory;
  code : Z;
  file : option SourceFile;
  start : option Z;
  messageText : string + DiagnosticMessageChain
}.

Record EmitResult : Type := {
  emitSkipped : bool;
  diagnostics : list Diagnostic;
  emittedFiles : option (list string)
}.

(** The result of [parseConfigFileTextToJson]. *)
Record ConfigFileJson : Type := {
  config : option json;
  error : option Diagnostic
}.

(** The result of [parseJsonConfigFileContent]. *)
Record ParsedCommandLine : Type := {
  options : CompilerOptions;
  errors : list Diagnostic
}.

End ts.

(** Modelled from the spec: [ServerlessTSFunction], declared in
    [./types], which is not part of the sources at hand. The spec's
    HandlerSpec has one essential attribute, [handler], a dotted string;
    that is the only field [utils.ts] reads. *)
Record ServerlessTSFunction : Set := { handler : string }.

(** A logger is an object with one method, [log]. It is modelled by what
    it is given: each call is recorded in the trace of events. *)
Variant Logger : Set := logger_object.

(** ** The collaborators *)

(** Node's [path] and [fs-extra] over one disk, and [JSON]. The functions
    that read the disk do not write to it, so within a call the disk is
    fixed and is part of the host. *)
Class Host : Type := {
  path_join : string -> string -> string;
  path_resolve : string -> string;
  path_dirname : string -> string;
  (** does [fse.existsSync] find something at this path *)
  disk_exists : string -> bool;
  (** [fse.readFileSync(path).toString()] *)
  disk_read : string -> exn + string;
  JSON_parse : string -> exn + json;
  (** [JSON.stringify] of one diagnostic, and of an array of them. It
      throws a [TypeError] on an object that refers back to itself, as a
      diagnostic does through the source file it carries. *)
  JSON_stringify : ts.Diagnostic -> exn + string;
  JSON_stringify_all : list ts.Diagnostic -> exn + string
}.

(** The TypeScript compiler API. A program is whatever [createProgram]
    builds; [emit] and the rest read it. *)
Class TypeScript : Type := {
  Program : Type;
  createProgram : list string -> ts.CompilerOptions -> Program;
  emit : Program -> ts.EmitResult;
  program_getSourceFiles : Program -> list ts.SourceFile;
  getPreEmitDiagnostics : Program -> list ts.Diagnostic;
  flattenDiagnosticMessageText : string + ts.DiagnosticMessageChain -> string -> string;
  parseConfigFileTextToJson : string -> string -> ts.ConfigFileJson;
  (** the [sys] argument is the compiler's own host object and is left out *)
  parseJsonConfigFileContent : option json -> string -> ts.ParsedCommandLine
}.

(** ** State and effects *)

(** What the code does that can be observed from outside, in order. *)
Inductive event : Type :=
  | console_log (line : string)
  | logger_log (line : string)
  | fse_existsSync_call (path : string)
  | fse_readFileSync_call (path : string).

(** Option objects live in a store and are passed by reference, as
    JavaScript objects are. *)
Abbreviation ref := nat (only parsing).

Record World : Type := {
  heap : list ts.CompilerOptions;
  trace : list event
}.

(** A computation: it runs in a world and either throws or returns. *)
Definition M (A : Type) : Type := World -> World * (exn + A).

Definition ret {A} (a : A) : M A := fun w => (w, inr a).

Definition throw {A} (e : exn) : M A := fun w => (w, inl e).

Definition bind {A B} (m : M A) (k : A -> M B) : M B :=
  fun w =>
    match m w with
    | (w', inr a) => k a w'
    | (w', inl e) => (w', inl e)
    end.

Declare Scope js_scope.
Delimit Scope js_scope with js.
Notation "x <- m ;; k" := (bind m (fun x => k))
  (at level 100, m at next level, right associativity) : js_scope.
Notation "m ;; k" := (bind m (fun _ => k))
  (at level 100, right associativity) : js_scope.
Local Open Scope js_scope.

(** An outcome computed without effects, raised or returned. *)
Definition of_result {A} (r : exn + A) : M A :=
  match r with
  | inl e => throw e
  | inr a => ret a
  end.

Definition emit_event (e : event) : M unit :=
  fun w => ({| heap := heap w; trace := trace w ++ [e] |}, inr tt).

(** [xs.map(f)] for an [f] with effects: left to right, stopping at the
    first exception. *)
Fixpoint mapM {A B} (f : A -> M B) (xs : list A) : M (list B) :=
  match xs with
  | [] => ret []
  | x :: xs' => y <- f x;; ys <- mapM f xs';; ret (y :: ys)
  end.

(** [xs.forEach(f)]. *)
Fixpoint forEach {A} (f : A -> M unit) (xs : list A) : M unit :=
  match xs with
  | [] => ret tt
  | x :: xs' => f x;; forEach f xs'
  end.

(** A new object in the store. *)
Definition new_object (o : ts.CompilerOptions) : M ref :=
  fun w => ({| heap := heap w ++ [o]; trace := trace w |}, inr (length (heap w))).

(** The object a reference points to. A reference that points to nothing
    does not arise from [new_object]; reading it is a [TypeError]. *)
Definition read_object (r : ref) : M ts.CompilerOptions :=
  fun w =>
    match heap w !! r with
    | Some o => (w, inr o)
    | None => (w, inl (TypeError "Cannot read properties of undefined"))
    end.

(** [r.key = v]. *)
Definition set_property (r : ref) (key : string) (v : ts.CompilerOptionsValue) : M unit :=
  fun w =>
    match heap w !! r with
    | Some o => ({| heap := <[r := <[key := v]> o]> (heap w); trace := trace w |}, inr tt)
    | None => (w, inl (TypeError "Cannot set properties of undefined"))
    end.

Definition console_log_ (line : string) : M unit := emit_event (console_log line).

Definition log (l : Logger) (line : string) : M unit := emit_event (logger_log line).

Section Effects.
Context {host : Host}.

Definition fse_existsSync (p : string) : M bool :=
  emit_event (fse_existsSync_call p);; ret (disk_exists p).

Definition fse_readFileSync (p : string) : M string :=
  emit_event (fse_readFileSync_call p);;
  of_result (disk_read p).

End Effects.

(** ** The errors of the spec, as the exceptions the code throws *)

Definition HandlerNameUnresolvable (h : string) : exn :=
  Error ("Couldn't get exported function name; missing name after '.' in " +:+ h).

Definition HandlerFileMissing : exn :=
  Error "Typescript compilation failed. Please ensure handlers exists with ext .ts or .js".

Definition ManifestEntrypointMissing : exn := Error "Typescript compilation failed".

Definition CompilationFailedError : exn := Error "Typescript compilation failed".

(** [new Error(JSON.stringify(result.error))], once [JSON.stringify] has
    returned the text [written]. *)
Definition ConfigParseError (written : string) : exn := Error written.

(** [new Error(JSON.stringify(configParseResult.errors))], likewise. *)
Definition ConfigValidationError (written : string) : exn := Error written.

(** ** The lines given to the logger *)

Definition using_local_tsconfig (configFilePath : string) : string :=
  "Using local tsconfig.json at " +:+ JsString.dquote +:+ configFilePath +:+ JsString.dquote.

Definition rootDir_overriden_warning : string :=
  "Warning: " +:+ JsString.dquote +:+ "rootDir" +:+ JsString.dquote
  +:+ " from local tsconfig.json is overriden".

(** ** JavaScript values read dynamically *)

(** [v.key] for a parsed JSON value [v]: [None] is [undefined]. Reading a
    property of [null] throws; strings, numbers, booleans and arrays have
    no property of the names read here. *)
Definition get_property (v : json) (key : string) : exn + option json :=
  match v with
  | JNull => inl (TypeError ("Cannot read properties of null (reading '" +:+ key +:+ "')"))
  | JObject members => inr (snd <$> List.find (fun m => String.eqb (fst m) key) members)
  | _ => inr None
  end.

(** Truthiness of a value that may be [undefined]. *)
Definition json_truthy (v : option json) : bool :=
  match v with
  | None | Some JNull => false
  | Some (JBool b) => b
  | Some (JNumber q) => negb (Qeq_bool q 0)
  | Some (JString s) => JsString.truthy s
  | Some (JArray _) | Some (JObject _) => true
  end.

(** Truthiness of an option value that may be [undefined]. *)
Definition option_truthy (v : option ts.CompilerOptionsValue) : bool :=
  match v with
  | None => false
  | Some (ts.VBool b) => b
  | Some (ts.VString s) => JsString.truthy s
  | Some (ts.VNumber n) => negb (n =? 0)
  | Some _ => true
  end.

(** ** [utils.ts] *)

Definition defaultTypescriptConfig : ts.CompilerOptions :=
    list_to_map [
      ("module", ts.VModuleKind ts.CommonJS);
      ("target", ts.VScriptTarget ts.ES5);
      ("lib", ts.VStrings ["ES2020"]);
      ("rootDir", ts.VString "./");
      ("allowJs", ts.VBool true);
      ("checkJs", ts.VBool true);
      ("strict", ts.VBool true);
      ("noImplicitAny", ts.VBool true);
      ("strictNullChecks", ts.VBool true);
      ("strictFunctionTypes", ts.VBool true);
      ("strictBindCallApply", ts.VBool true);
      ("strictPropertyInitialization", ts.VBool true);
      ("noImplicitThis", ts.VBool true);
      ("alwaysStrict", ts.VBool true);
      ("noUnusedLocals", ts.VBool true);
      ("noUnusedParameters", ts.VBool true);
      ("noImplicitReturns", ts.VBool true);
      ("noFallthroughCasesInSwitch", ts.VBool true);
      ("moduleResolution", ts.VModuleResolutionKind ts.NodeJs);
      ("esModuleInterop", ts.VBool true);
      ("experimentalDecorators", ts.VBool true);
      ("emitDecoratorMetadata", ts.VBool true);
      ("forceConsistentCasingInFileNames", ts.VBool true);
      ("preserveConstEnums", ts.VBool true);
      ("sourceMap", ts.VBool true)
    ].

(** Each call builds the object anew. *)
Definition makeDefaultTypescriptConfig : M ref := new_object defaultTypescriptConfig.

Section Utils.
Context {host : Host} {compiler : TypeScript}.

(** [_.last(h.split("."))]; [None] is [undefined]. *)
Definition handler_fnName (h : string) : option string :=
  last (JsString.split "." h).

(** [h.substring(0, h.lastIndexOf(fnName))] *)
Definition handler_fileName (h fnName : string) : string :=
  let fnNameLastAppearanceIndex := JsString.lastIndexOf h fnName in
  (* replace only last instance to allow the same name for file and handler *)
  JsString.substring h 0 fnNameLastAppearanceIndex.

(** The body of the second [map] of [extractFileNames]: one handler
    string to its entry point. *)
Definition resolveHandler (cwd h : string) : M string :=
  match handler_fnName h with
  | None => throw (HandlerNameUnresolvable h)
  | Some fnName =>
      if negb (JsString.truthy fnName) then throw (HandlerNameUnresolvable h)
      else
        let fileName := handler_fileName h fnName in
        ts_exists <- fse_existsSync (path_join cwd (fileName +:+ "ts"));;
        if ts_exists then ret (fileName +:+ "ts")
        else
          js_exists <- fse_existsSync (path_join cwd (fileName +:+ "js"));;
          if js_exists then ret (fileName +:+ "js")
          else
            console_log_ ("Cannot locate handler - " +:+ JsString.slice fileName 0 (-1)
                          +:+ " not found");;
            throw HandlerFileMissing
  end.

(** [_.values(functions).map(fn => fn.handler).map(h => ...)]; the
    mapping lists its entries in the order the object enumerates them,
    and [_.values(undefined)] is empty. *)
Definition resolveHandlers (cwd : string)
    (functions : option (list (string * ServerlessTSFunction))) : M (list string) :=
  let values := snd <$> default [] functions in
  mapM (resolveHandler cwd) (handler <$> values).

(** [packageFile.main ? packageFile.main.replace(/\.js$/, ".ts") : "index.ts"] *)
Definition manifest_main (packageFile : json) : exn + string :=
  match get_property packageFile "main" with
  | inl e => inl e
  | inr main =>
      if json_truthy main then
        match main with
        | Some (JString s) => inr (JsString.replace_js_at_end s)
        | _ => inl (TypeError "packageFile.main.replace is not a function")
        end
      else inr "index.ts"
  end.

Definition extractFileNames (cwd provider : string)
    (functions : option (list (string * ServerlessTSFunction))) : M (list string) :=
  if String.eqb provider "google" then
    let packageFilePath := path_join cwd "package.json" in
    manifest_exists <- fse_existsSync packageFilePath;;
    if manifest_exists then
      text <- fse_readFileSync packageFilePath;;
      packageFile <- of_result (JSON_parse text);;
      main <- of_result (manifest_main packageFile);;
      main_exists <- fse_existsSync (path_join cwd main);;
      if negb main_exists then
        console_log_ ("Cannot locate entrypoint, " +:+ main +:+ " not found");;
        throw ManifestEntrypointMissing
      else ret [main]
    else resolveHandlers cwd functions
  else resolveHandlers cwd functions.

(** The body of the [forEach] of [run]. [diagnostic.start] is a number
    tested for truthiness, so an offset of [0] counts as absent. *)
Definition printDiagnostic (diagnostic : ts.Diagnostic) : M unit :=
  match ts.file diagnostic, ts.start diagnostic with
  | Some file, Some start =>
      if negb (start =? 0) then
        let lc := ts.getLineAndCharacterOfPosition file start in
        let message := flattenDiagnosticMessageText (ts.messageText diagnostic)
                         JsString.newline in
        console_log_ (ts.fileName file +:+ " (" +:+ JsString.of_number (ts.line lc + 1)
                      +:+ "," +:+ JsString.of_number (ts.character lc + 1) +:+ "): "
                      +:+ message)
      else ret tt
  | _, _ => ret tt
  end.

(** [undefined] is [None]: [emittedFiles?.filter(...)]. *)
Definition run (fileNames : list string) (options : ref) : M (option (list string)) :=
  set_property options "listEmittedFiles" (ts.VBool true);;
  o <- read_object options;;
  let program := createProgram fileNames o in
  let emitResult := emit program in
  let allDiagnostics := getPreEmitDiagnostics program ++ ts.diagnostics emitResult in
  forEach printDiagnostic allDiagnostics;;
  if ts.emitSkipped emitResult then throw CompilationFailedError
  else ret (List.filter (fun filename => JsString.endsWith filename ".js")
              <$> ts.emittedFiles emitResult).

Definition getSourceFiles (rootFileNames : list string) (options : ref) : M (list string) :=
  o <- read_object options;;
  let program := createProgram rootFileNames o in
  let programmFiles := ts.fileName <$> program_getSourceFiles program in
  ret programmFiles.

(** The first two operands of the condition that guards the warning:
    [options.rootDir && path.resolve(options.rootDir) !== path.resolve(cwd)].
    [path.resolve] throws when it is given something that is not a
    string. *)
Definition rootDir_differs (rootDir : option ts.CompilerOptionsValue) (cwd : string)
    : exn + bool :=
  if option_truthy rootDir then
    match rootDir with
    | Some (ts.VString dir) => inr (negb (String.eqb (path_resolve dir) (path_resolve cwd)))
    | _ => inl (TypeError "The path argument must be of type string")
    end
  else inr false.

(** [tsconfigFilePath] has a default value, used when the argument is
    [undefined]. *)
Definition getTypescriptConfig (cwd : string) (tsconfigFilePath : option string)
    (logger : option Logger) : M ref :=
  let tsconfigFilePath := default "tsconfig.json" tsconfigFilePath in
  let configFilePath := path_join cwd tsconfigFilePath in
  config_exists <- fse_existsSync configFilePath;;
  if config_exists then
    configFileText <- fse_readFileSync configFilePath;;
    let result := parseConfigFileTextToJson configFilePath configFileText in
    match ts.error result with
    | Some e =>
        (* the argument of [new Error] is evaluated first, and may throw *)
        written <- of_result (JSON_stringify e);;
        throw (ConfigParseError written)
    | None =>
        let configParseResult :=
          parseJsonConfigFileContent (ts.config result) (path_dirname configFilePath) in
        options <- new_object (ts.options configParseResult);;
        if (0 <? length (ts.errors configParseResult))%nat
        then
          written <- of_result (JSON_stringify_all (ts.errors configParseResult));;
          throw (ConfigValidationError written)
        else
          match logger with
          | Some l => log l (using_local_tsconfig configFilePath)
          | None => ret tt
          end;;
          (* disallow overrriding rootDir *)
          o <- read_object options;;
          differs <- of_result (rootDir_differs (o !! "rootDir") cwd);;
          match logger with
          | Some l =>
              if differs then log l rootDir_overriden_warning else ret tt
          | None => ret tt
          end;;
          set_property options "rootDir" (ts.VString cwd);;
          ret options
    end
  else makeDefaultTypescriptConfig.

End Utils.

(** ** A concrete host, to run the code

    POSIX [path], a disk given as a table, [JSON.parse] given as a table of
    the texts it meets, and a compiler that answers with a fixed program. *)
Module Fixture.

Definition join_with (sep : string) (pieces : list string) : string :=
  match pieces with
  | [] => EmptyString
  | p :: ps => fold_left (fun acc q => acc +:+ sep +:+ q) ps p
  end.

(** Node's [normalizeString]: drops empty and ["."] segments and
    resolves [".."] against the segment before it. [done] is the
    result so far, last segment first. *)
Fixpoint normalize_segments (allowAboveRoot : bool) (done todo : list string)
    : list string :=
  match todo with
  | [] => rev done
  | seg :: todo' =>
      if String.eqb seg EmptyString || String.eqb seg "." then
        normalize_segments allowAboveRoot done todo'
      else if String.eqb seg ".." then
        match done with
        | top :: done' =>
            if String.eqb top ".." then normalize_segments allowAboveRoot (seg :: done) todo'
            else normalize_segments allowAboveRoot done' todo'
        | [] =>
            normalize_segments allowAboveRoot (if allowAboveRoot then [seg] else []) todo'
        end
      else normalize_segments allowAboveRoot (seg :: done) todo'
  end.

Definition isAbsolute (p : string) : bool := String.prefix "/" p.

Definition normalize (p : string) : string :=
  if String.eqb p EmptyString then "."
  else
    let absolute := isAbsolute p in
    let trailingSeparator := JsString.endsWith p "/" in
    let body := join_with "/" (normalize_segments (negb absolute) [] (JsString.split "/" p)) in
    if String.eqb body EmptyString then
      if absolute then "/" else if trailingSeparator then "./" else "."
    else
      let body := if trailingSeparator then body +:+ "/" else body in
      if absolute then "/" +:+ body else body.

(** [path.join(a, b)] *)
Definition join (a b : string) : string :=
  match List.filter JsString.truthy [a; b] with
  | [] => "."
  | pieces => normalize (join_with "/" pieces)
  end.

(** [path.resolve(p)] in a process whose working directory is
    [process_cwd], an absolute path. *)
Definition resolve (process_cwd p : string) : string :=
  let resolved :=
    if String.eqb p EmptyString then process_cwd
    else if isAbsolute p then p
    else process_cwd +:+ "/" +:+ p in
  "/" +:+ join_with "/" (normalize_segments false [] (JsString.split "/" resolved)).

Fixpoint drop_while {A} (f : A -> bool) (l : list A) : list A :=
  match l with
  | x :: l' => if f x then drop_while f l' else l
  | [] => []
  end.

(** [path.dirname(p)] *)
Definition dirname (p : string) : string :=
  match list_ascii_of_string p with
  | [] => "."
  | first :: others =>
      let hasRoot := Ascii.eqb first "/" in
      let is_slash c := Ascii.eqb c "/" in
      let before_name :=
        drop_while (fun c => negb (is_slash c)) (drop_while is_slash (rev others)) in
      match before_name with
      | [] => if hasRoot then "/" else "."
      | [_] => if hasRoot then "//" else String first EmptyString
      | _ :: kept => string_of_list_ascii (first :: rev kept)
      end
  end.

(** A disk entry: a file with its text, or a directory. *)
Inductive node : Type := File (text : string) | Directory.

Definition lookup_path {A} (p : string) (table : list (string * A)) : option A :=
  snd <$> List.find (fun e => String.eqb (fst e) p) table.

Definition read (disk : list (string * node)) (p : string) : exn + string :=
  match lookup_path p disk with
  | Some (File text) => inr text
  | Some Directory => inl (SystemError "EISDIR")
  | None => inl (SystemError "ENOENT")
  end.

Definition parse (texts : list (string * json)) (text : string) : exn + json :=
  match lookup_path text texts with
  | Some v => inr v
  | None => inl (SyntaxError "Unexpected token")
  end.

Definition category_number (c : ts.DiagnosticCategory) : Z :=
  match c with
  | ts.Warning => 0
  | ts.Error => 1
  | ts.Suggestion => 2
  | ts.Message => 3
  end.

(** The JSON text of a diagnostic without a file: its message, category
    and code. The messages used here need no escaping; of a chained
    message the head is written. *)
Definition written_diagnostic (d : ts.Diagnostic) : string :=
  let q := JsString.dquote in
  let text :=
    match ts.messageText d with
    | inl text => text
    | inr (ts.MessageChain text _) => text
    end in
  "{" +:+ q +:+ "messageText" +:+ q +:+ ":" +:+ q +:+ text +:+ q
  +:+ "," +:+ q +:+ "category" +:+ q +:+ ":" +:+ JsString.of_number (category_number (ts.category d))
  +:+ "," +:+ q +:+ "code" +:+ q +:+ ":" +:+ JsString.of_number (ts.code d) +:+ "}".

(** [JSON.stringify] of a diagnostic. One that carries its source file
    cannot be written: the file object refers back to itself. *)
Definition stringify (d : ts.Diagnostic) : exn + string :=
  match ts.file d with
  | Some _ => inl (TypeError "Converting circular structure to JSON")
  | None => inr (written_diagnostic d)
  end.

(** [JSON.stringify] of an array of diagnostics. *)
Definition stringify_all (ds : list ts.Diagnostic) : exn + string :=
  if forallb (fun d => negb (bool_decide (is_Some (ts.file d)))) ds
  then inr ("[" +:+ join_with "," (written_diagnostic <$> ds) +:+ "]")
  else inl (TypeError "Converting circular structure to JSON").

(** The host over a disk whose paths are written as [join] and
    [resolve] return them. *)
Definition host (process_cwd : string) (disk : list (string * node))
    (texts : list (string * json)) : Host := {|
  path_join := join;
  path_resolve := resolve process_cwd;
  path_dirname := dirname;
  disk_exists p := bool_decide (is_Some (lookup_path p disk));
  disk_read := read disk;
  JSON_parse := parse texts;
  JSON_stringify := stringify;
  JSON_stringify_all := stringify_all
|}.

(** A program that has been compiled already. *)
Record program : Type := {
  emitResult : ts.EmitResult;
  preEmitDiagnostics : list ts.Diagnostic;
  sourceFiles : list ts.SourceFile
}.

(** [flattenDiagnosticMessageText]: a chain is printed one message a
    line, each level indented by two more spaces. *)
Fixpoint flatten_chain (newLine : string) (indent : nat) (chain : ts.DiagnosticMessageChain)
    : string :=
  match chain with
  | ts.MessageChain text next =>
      let head :=
        match indent with
        | O => text
        | _ => newLine +:+ fold_right String.append text (replicate indent "  ")
        end in
      fold_left (fun acc kid => acc +:+ flatten_chain newLine (S indent) kid) next head
  end.

Definition flatten (text : string + ts.DiagnosticMessageChain) (newLine : string) : string :=
  match text with
  | inl s => s
  | inr chain => flatten_chain newLine 0 chain
  end.

(** A compiler that builds [p] whatever it is given, reads every config
    file as [raw], and expands it to [parsed]. *)
Definition compiler (p : program) (raw : ts.ConfigFileJson) (parsed : ts.ParsedCommandLine)
    : TypeScript := {|
  Program := program;
  createProgram _ _ := p;
  emit := emitResult;
  program_getSourceFiles := sourceFiles;
  getPreEmitDiagnostics := preEmitDiagnostics;
  flattenDiagnosticMessageText := flatten;
  parseConfigFileTextToJson _ _ := raw;
  parseJsonConfigFileContent _ _ := parsed
|}.

Definition empty_world : World := {| heap := []; trace := [] |}.

(** A source file whose lines are all [width] characters long, the line
    break included. *)
Definition source_file (name : string) (width : Z) : ts.SourceFile := {|
  ts.fileName := name;
  ts.getLineAndCharacterOfPosition pos :=
    {| ts.line := pos / width; ts.character := pos mod width |}
|}.

(** *** Sample projects *)

(** A handler mapping whose one handler has no dot. *)
Definition hello : list (string * ServerlessTSFunction) :=
  [("hello", {| handler := "handler" |})].

Definition manifest_text : string :=
  "{" +:+ JsString.dquote +:+ "main" +:+ JsString.dquote +:+ ": "
  +:+ JsString.dquote +:+ "dist/app.js" +:+ JsString.dquote +:+ "}".

Definition manifest_json : json := JObject [("main", JString "dist/app.js")].

(** A project with a manifest, its entry point and one handler file. *)
Definition google_project : Host :=
  host "/home/user"
    [("/proj/package.json", File manifest_text);
     ("/proj/dist/app.ts", File "export const app = 1;");
     ("/proj/src/a.b.ts", File "export const handler = 1;")]
    [(manifest_text, manifest_json)].

(** The same manifest, but the file it names is not there. *)
Definition broken_google_project : Host :=
  host "/home/user"
    [("/proj/package.json", File manifest_text)]
    [(manifest_text, manifest_json)].

(** A project with one handler file and nothing else. *)
Definition plain_project : Host :=
  host "/home/user" [("/proj/src/a.b.ts", File "export const handler = 1;")] [].

(** A project directory with no files at all. *)
Definition empty_project : Host := host "/home/user" [] [].

(** *** Sample compilations *)

Definition app_ts : ts.SourceFile := source_file "src/app.ts" 10.

Definition diagnostic_at (cat : ts.DiagnosticCategory) (pos : Z) (text : string)
    : ts.Diagnostic := {|
  ts.category := cat;
  ts.code := 2322;
  ts.file := Some app_ts;
  ts.start := Some pos;
  ts.messageText := inl text
|}.

(** A diagnostic without a file, as for a wrong option. *)
Definition global_diagnostic (text : string) : ts.Diagnostic := {|
  ts.category := ts.Error;
  ts.code := 5023;
  ts.file := None;
  ts.start := None;
  ts.messageText := inl text
|}.

(** A compilation that emits, with a warning before the emit. *)
Definition clean_program : program := {|
  emitResult := {|
    ts.emitSkipped := false;
    ts.diagnostics := [];
    ts.emittedFiles := Some ["dist/app.js"; "dist/app.js.map"; "dist/app.d.ts"; "dist/lib.js"]
  |};
  preEmitDiagnostics := [diagnostic_at ts.Warning 25 "unused"];
  sourceFiles := [app_ts]
|}.

(** A compilation whose emit is skipped. *)
Definition skipped_program : program := {|
  emitResult := {|
    ts.emitSkipped := true;
    ts.diagnostics := [global_diagnostic "cannot write"];
    ts.emittedFiles := Some []
  |};
  preEmitDiagnostics := [diagnostic_at ts.Error 25 "not assignable";
                         diagnostic_at ts.Error 47 "not callable"];
  sourceFiles := [app_ts]
|}.

(** A compilation with one error, on the first character of the file. *)
Definition first_character_program : program := {|
  emitResult := {|
    ts.emitSkipped := false;
    ts.diagnostics := [];
    ts.emittedFiles := Some ["dist/app.js"]
  |};
  preEmitDiagnostics := [diagnostic_at ts.Error 0 "not a module"];
  sourceFiles := [app_ts]
|}.

Definition no_config : ts.ConfigFileJson := {| ts.config := None; ts.error := None |}.

Definition no_options : ts.ParsedCommandLine := {| ts.options := ∅; ts.errors := [] |}.

Definition compiling (p : program) : TypeScript := compiler p no_config no_options.

(** A world whose store holds the one object [o], at reference [0]. *)
Definition world_with (o : ts.CompilerOptions) : World := {| heap := [o]; trace := [] |}.

(** A project with a config file that sets its own [rootDir]. *)
Definition configured_project : Host :=
  host "/home/user" [("/proj/tsconfig.json", File "{ }")] [].

Definition configured_compiler : TypeScript :=
  compiler clean_program
    {| ts.config := Some (JObject []); ts.error := None |}
    {| ts.options := {[ "rootDir" := ts.VString "/proj/src"; "strict" := ts.VBool true ]};
       ts.errors := [] |}.

(** *** More sample compilations *)

(** A compilation for which the engine lists no emitted files. *)
Definition silent_program : program := {|
  emitResult := {| ts.emitSkipped := false; ts.diagnostics := []; ts.emittedFiles := None |};
  preEmitDiagnostics := [];
  sourceFiles := [app_ts; source_file "src/lib.ts" 10]
|}.

(** Diagnostics before and at the emit, one of them without a file. *)
Definition noisy_program : program := {|
  emitResult := {|
    ts.emitSkipped := false;
    ts.diagnostics := [diagnostic_at ts.Warning 12 "emitted late"];
    ts.emittedFiles := Some ["dist/app.d.ts"]
  |};
  preEmitDiagnostics := [diagnostic_at ts.Error 25 "not assignable";
                         global_diagnostic "unknown option"];
  sourceFiles := [app_ts]
|}.

(** A config file whose text does not parse: the parser's diagnostic
    carries the file it read. *)
Definition syntax_diagnostic : ts.Diagnostic := {|
  ts.category := ts.Error;
  ts.code := 1005;
  ts.file := Some (source_file "/proj/tsconfig.json" 80);
  ts.start := Some 2;
  ts.messageText := inl "'}' expected."
|}.

(** A parse error that carries no file. *)
Definition unparsable_without_file_compiler : TypeScript :=
  compiler clean_program
    {| ts.config := None; ts.error := Some (global_diagnostic "'}' expected.") |} no_options.

(** A config file that parses but extends a file with an error in it:
    the validation error carries that file. *)
Definition invalid_extends_compiler : TypeScript :=
  compiler clean_program
    {| ts.config := Some (JObject []); ts.error := None |}
    {| ts.options := {[ "strict" := ts.VBool true ]};
       ts.errors := [global_diagnostic "unknown option"; syntax_diagnostic] |}.

Definition unparsable_config_compiler : TypeScript :=
  compiler clean_program {| ts.config := None; ts.error := Some syntax_diagnostic |} no_options.

(** A config file that parses but has two invalid options. *)
Definition invalid_config_compiler : TypeScript :=
  compiler clean_program
    {| ts.config := Some (JObject []); ts.error := None |}
    {| ts.options := {[ "strict" := ts.VBool true ]};
       ts.errors := [global_diagnostic "unknown option"; global_diagnostic "bad target"] |}.

(** [tsconfig.json] is a directory. *)
Definition unreadable_config_project : Host :=
  host "/home/user" [("/proj/tsconfig.json", Directory)] [].

(** *** More sample projects *)

(** A project whose handler file is plain JavaScript. *)
Definition js_project : Host :=
  host "/home/user" [("/proj/src/b.js", File "exports.run = 1;")] [].

(** A manifest without [main], next to an [index.ts]. *)
Definition index_project : Host :=
  host "/home/user"
    [("/proj/package.json", File "{ }"); ("/proj/index.ts", File "export {};");
     ("/proj/src/a.b.ts", File "export const handler = 1;")]
    [("{ }", JObject [])].

(** A manifest that names a JavaScript file that is there, without a
    TypeScript file beside it. *)
Definition js_main_project : Host :=
  host "/home/user"
    [("/proj/package.json", File manifest_text); ("/proj/dist/app.js", File "exports.app = 1;")]
    [(manifest_text, manifest_json)].

(** [package.json] is a directory. *)
Definition unreadable_manifest_project : Host :=
  host "/home/user" [("/proj/package.json", Directory)] [].

(** [package.json] holds [null]. *)
Definition null_manifest_project : Host :=
  host "/home/user" [("/proj/package.json", File "null")] [("null", JNull)].

(** A TypeScript handler file and a JavaScript one, and no manifest. *)
Definition mixed_project : Host :=
  host "/home/user"
    [("/proj/src/a.b.ts", File "export const handler = 1;");
     ("/proj/src/b.js", File "exports.run = 1;")] [].

Definition mixed_handlers : list (string * ServerlessTSFunction) :=
  [("first", {| handler := "src/a.b.handler" |}); ("second", {| handler := "src/b.run" |})].

(** Two handlers, the second of which has no file. *)
Definition two_handlers : list (string * ServerlessTSFunction) :=
  [("first", {| handler := "src/a.b.handler" |}); ("second", {| handler := "src/gone.run" |})].

End Fixture.


(** ** What [run] prints *)

Section Printed.
Context {compiler : TypeScript}.

(** The line [run] prints for a diagnostic, if it prints one. *)
Definition diagnostic_line (d : ts.Diagnostic) : option string :=
  match ts.file d, ts.start d with
  | Some file, Some start =>
      if start =? 0 then None
      else
        let lc := ts.getLineAndCharacterOfPosition file start in
        Some (ts.fileName file +:+ " (" +:+ JsString.of_number (ts.line lc + 1)
              +:+ "," +:+ JsString.of_number (ts.character lc + 1) +:+ "): "
              +:+ flattenDiagnosticMessageText (ts.messageText d) JsString.newline)
  | _, _ => None
  end.

Definition printed_lines (ds : list ts.Diagnostic) : list event :=
  console_log <$> omap diagnostic_line ds.

End Printed.

(** The events of a call that finds a config file: the probe, the
    read, and what the logger is given. *)
Definition config_events (configFilePath : string) (logger : option Logger)
    (differs : bool) : list event :=
  [fse_existsSync_call configFilePath; fse_readFileSync_call configFilePath]
  ++ match logger with
     | Some _ =>
         logger_log (using_local_tsconfig configFilePath)
         :: (if differs then [logger_log rootDir_overriden_warning] else [])
     | None => []
     end.

(** The value of [r.key] in the world [w]; [None] is [undefined]. *)
Definition property_of (w : World) (r : ref) (key : string) : option ts.CompilerOptionsValue :=
  match heap w !! r with
  | Some o => o !! key
  | None => None
  end.

(** The handler strings of a mapping, in the order [extractFileNames]
    goes through them. *)
Definition handlers_of (functions : option (list (string * ServerlessTSFunction)))
    : list string :=
  handler <$> (snd <$> default [] functions).

(** What is known of a path [p] that a handler [h] resolved to: it is the
    file name of [h] followed by ["ts"], or by ["js"] when the ["ts"] file
    is not there, and it is on the disk. *)
Definition resolved_from {host : Host} (cwd h p : string) : Prop :=
  exists fnName,
    handler_fnName h = Some fnName /\ fnName <> EmptyString /\
    (p = handler_fileName h fnName +:+ "ts" \/
     p = handler_fileName h fnName +:+ "js" /\
     disk_exists (path_join cwd (handler_fileName h fnName +:+ "ts")) = false) /\
    disk_exists (path_join cwd p) = true.

(** A handler [<base>.<name>] whose file is on the disk: the path it
    resolves to under [cwd], and the probes made on the way. The ["ts"]
    file is probed first, the ["js"] file only when that is not there. *)
Definition dotted_handler_outcome {host : Host} (cwd : string) (fn : ServerlessTSFunction)
    (outcome : string * list event) : Prop :=
  exists base fnName,
    handler fn = base +:+ "." +:+ fnName /\
    JsString.has_char "." fnName = false /\ fnName <> EmptyString /\
    let ts_path := path_join cwd (base +:+ ".ts") in
    let js_path := path_join cwd (base +:+ ".js") in
    (disk_exists ts_path = true /\
     outcome = (base +:+ ".ts", [fse_existsSync_call ts_path]) \/
     disk_exists ts_path = false /\ disk_exists js_path = true /\
     outcome = (base +:+ ".js", [fse_existsSync_call ts_path; fse_existsSync_call js_path])).

(** Does [run] print the diagnostic: it has a file, and a start offset
    that is not [0]. *)
Definition located (d : ts.Diagnostic) : bool :=
  match ts.file d, ts.start d with
  | Some _, Some start => negb (start =? 0)
  | _, _ => false
  end.

(** Is the event a call of the logger. *)
Definition is_logger_log (e : event) : bool :=
  match e with
  | logger_log _ => true
  | _ => false
  end.

(** The world [w] after the events [es] and no change to the store. *)
Definition after (w : World) (es : list event) : World :=
  {| heap := heap w; trace := trace w ++ es |}.

(** ** Properties of the string primitives *)

Section StringFacts.

Lemma append_nil_l s : EmptyString +:+ s = s.
Proof. reflexivity. Qed.

Lemma append_cons c s t : String c s +:+ t = String c (s +:+ t).
Proof. reflexivity. Qed.

Lemma split_not_nil sep s : JsString.split sep s <> [].
Proof.
  destruct s as [|c s]; simpl; [discriminate|].
  destruct (Ascii.eqb c sep); [discriminate|].
  destruct (JsString.split sep s); discriminate.
Qed.

Lemma last_cons_not_nil {A} (x : A) (l : list A) : l <> [] -> last (x :: l) = last l.
Proof. destruct l; [congruence | reflexivity]. Qed.

(** Either the separator does not occur and the string is its own single
    piece, or the last piece is what follows the last separator. *)
Lemma split_shape sep s :
  (JsString.has_char sep s = false /\ JsString.split sep s = [s]) \/
  (exists p name,
      s = p +:+ String sep name /\ JsString.has_char sep name = false /\
      last (JsString.split sep s) = Some name).
Proof.
  induction s as [|c s IH]; [left; split; reflexivity|].
  simpl. destruct (Ascii.eqb_spec c sep) as [->|Hne].
  - right. destruct IH as [[Hno Hsplit]|(p & name & Hs & Hno & Hlast)].
    + exists EmptyString, s. rewrite Hsplit. repeat split; assumption.
    + exists (String sep p), name. repeat split; [rewrite Hs; reflexivity | assumption |].
      rewrite last_cons_not_nil; [assumption | apply split_not_nil].
  - destruct IH as [[Hno Hsplit]|(p & name & Hs & Hno & Hlast)].
    + left. rewrite Hsplit. split; [assumption | reflexivity].
    + right. exists (String c p), name. repeat split; [rewrite Hs; reflexivity | assumption |].
      destruct (JsString.split sep s) as [|piece pieces] eqn:Hsplit;
        [discriminate|].
      destruct pieces as [|piece' pieces].
      * (* one piece only: the separator would not occur in [s] *)
        exfalso. simpl in Hlast. injection Hlast as ->.
        assert (Hlen : (length (JsString.split sep s) >= 2)%nat).
        { rewrite Hs. clear. induction p as [|a p IHp]; simpl.
          - rewrite Ascii.eqb_refl. simpl.
            pose proof (split_not_nil sep name).
            destruct (JsString.split sep name); [congruence | simpl; lia].
          - destruct (Ascii.eqb a sep); simpl.
            + pose proof (split_not_nil sep (p +:+ String sep name)).
              destruct (JsString.split sep (p +:+ String sep name)); [congruence | simpl; lia].
            + destruct (JsString.split sep (p +:+ String sep name)) as [|x [|y l]];
                simpl in *; lia. }
        rewrite Hsplit in Hlen. simpl in Hlen. lia.
      * exact Hlast.
Qed.

Lemma prefix_refl s : String.prefix s s = true.
Proof.
  induction s as [|c s IH]; [reflexivity|].
  simpl. destruct (ascii_dec c c); [assumption | congruence].
Qed.

Lemma prefix_longer needle s :
  (String.length s < String.length needle)%nat -> String.prefix needle s = false.
Proof.
  revert s. induction needle as [|c needle IH]; intros s Hlen; simpl in Hlen; [lia|].
  destruct s as [|c' s]; [reflexivity|].
  simpl in *. destruct (ascii_dec c c'); [apply IH; lia | reflexivity].
Qed.

Lemma lastIndexOf_from_short needle s i :
  (String.length s < String.length needle)%nat ->
  JsString.lastIndexOf_from needle s i = None.
Proof.
  revert i. induction s as [|c s IH]; intros i Hlen.
  - simpl. destruct needle; [simpl in Hlen; lia | reflexivity].
  - cbn [JsString.lastIndexOf_from]. rewrite IH by (simpl in Hlen; lia).
    rewrite prefix_longer by assumption. reflexivity.
Qed.

Lemma lastIndexOf_from_self s i : JsString.lastIndexOf_from s s i = Some i.
Proof.
  destruct s as [|c s]; [reflexivity|].
  cbn [JsString.lastIndexOf_from].
  rewrite lastIndexOf_from_short by (simpl; lia).
  rewrite prefix_refl. reflexivity.
Qed.

(** The rightmost occurrence of a suffix is the suffix itself. *)
Lemma lastIndexOf_from_suffix stem name i :
  JsString.lastIndexOf_from name (stem +:+ name) i = Some (i + String.length stem)%nat.
Proof.
  revert i. induction stem as [|c stem IH]; intros i.
  - simpl. rewrite lastIndexOf_from_self. f_equal. lia.
  - change (String c stem +:+ name) with (String c (stem +:+ name)).
    cbn [JsString.lastIndexOf_from]. rewrite IH. f_equal. simpl. lia.
Qed.

Lemma lastIndexOf_suffix stem name :
  JsString.lastIndexOf (stem +:+ name) name = Z.of_nat (String.length stem).
Proof. unfold JsString.lastIndexOf. rewrite lastIndexOf_from_suffix. reflexivity. Qed.

Lemma substring_0_0 s : String.substring 0 0 s = EmptyString.
Proof. destruct s; reflexivity. Qed.

Lemma substring_take stem rest :
  String.substring 0 (String.length stem) (stem +:+ rest) = stem.
Proof.
  induction stem as [|c stem IH]; [apply substring_0_0|].
  rewrite append_cons. simpl. f_equal. exact IH.
Qed.

Lemma length_app s t : String.length (s +:+ t) = (String.length s + String.length t)%nat.
Proof.
  induction s as [|c s IH]; [reflexivity|].
  rewrite append_cons. simpl. f_equal. exact IH.
Qed.

Lemma substring_to_stem stem rest :
  JsString.substring (stem +:+ rest) 0 (Z.of_nat (String.length stem)) = stem.
Proof.
  unfold JsString.substring, JsString.clamp. rewrite length_app.
  replace (Z.min (Z.min (Z.max 0 0) _) _) with 0 by lia.
  replace (Z.to_nat (_ - 0)) with (String.length stem) by lia.
  apply substring_take.
Qed.

Lemma lastIndexOf_self s : JsString.lastIndexOf s s = 0.
Proof. exact (lastIndexOf_suffix EmptyString s). Qed.

Lemma substring_empty s : JsString.substring s 0 0 = EmptyString.
Proof. exact (substring_to_stem EmptyString s). Qed.

Example split_handler :
  JsString.split "." "src/a.b.handler" = ["src/a"; "b"; "handler"].
Proof. reflexivity. Qed.

Example split_trailing_dot : JsString.split "." "src/a." = ["src/a"; EmptyString].
Proof. reflexivity. Qed.

Example lastIndexOf_repeated : JsString.lastIndexOf "handler.handler" "handler" = 8.
Proof. reflexivity. Qed.

Example lastIndexOf_absent : JsString.lastIndexOf "handler" "." = -1.
Proof. reflexivity. Qed.

Example substring_negative_end : JsString.substring "handler" 0 (-1) = EmptyString.
Proof. reflexivity. Qed.

Example slice_drops_last : JsString.slice "src/a.b." 0 (-1) = "src/a.b".
Proof. reflexivity. Qed.

Example replace_js_at_end_only : JsString.replace_js_at_end "a.js/b.js" = "a.js/b.ts".
Proof. reflexivity. Qed.

Example replace_js_not_at_end : JsString.replace_js_at_end "dist/app.jsx" = "dist/app.jsx".
Proof. reflexivity. Qed.

End StringFacts.

Section SuffixFacts.

Lemma substring_skip p q k m :
  String.substring (String.length p + k) m (p +:+ q) = String.substring k m q.
Proof.
  induction p as [|c p IH]; [reflexivity|].
  rewrite append_cons. simpl. exact IH.
Qed.

(** Whether a string ends with [suffix] is decided by its last
    characters alone. *)
Lemma endsWith_app p q suffix :
  (String.length suffix <= String.length q)%nat ->
  JsString.endsWith (p +:+ q) suffix = JsString.endsWith q suffix.
Proof.
  intros Hlen. unfold JsString.endsWith. rewrite length_app.
  destruct (Nat.leb_spec (String.length suffix) (String.length q)) as [_|]; [|lia].
  destruct (Nat.leb_spec (String.length suffix) (String.length p + String.length q))
    as [_|]; [|lia].
  replace (String.length p + String.length q - String.length suffix)%nat
    with (String.length p + (String.length q - String.length suffix))%nat by lia.
  rewrite substring_skip. reflexivity.
Qed.

Lemma endsWith_has_char c s :
  JsString.endsWith s (String c EmptyString) = true -> JsString.has_char c s = true.
Proof.
  induction s as [|a s IH]; intros Hends; [discriminate|].
  simpl. destruct (Ascii.eqb_spec a c) as [|Hne]; [reflexivity|]. simpl.
  destruct s as [|b s].
  - exfalso. unfold JsString.endsWith in Hends. simpl in Hends.
    destruct (Ascii.eqb_spec a c); [contradiction | discriminate].
  - apply IH.
    change (String a (String b s)) with (String a EmptyString +:+ String b s) in Hends.
    rewrite endsWith_app in Hends by (simpl; lia). exact Hends.
Qed.

End SuffixFacts.

(** ** Running the effects *)

Section Running.
Context {host : Host}.

Lemma after_nil w : after w [] = w.
Proof. destruct w. unfold after. simpl. rewrite app_nil_r. reflexivity. Qed.

Lemma after_after w es es' : after (after w es) es' = after w (es ++ es').
Proof. unfold after. simpl. rewrite app_assoc. reflexivity. Qed.

Lemma emit_event_run e w : emit_event e w = (after w [e], inr tt).
Proof. reflexivity. Qed.

Lemma fse_existsSync_run p w :
  fse_existsSync p w = (after w [fse_existsSync_call p], inr (disk_exists p)).
Proof. reflexivity. Qed.

Lemma console_log_run line w : console_log_ line w = (after w [console_log line], inr tt).
Proof. reflexivity. Qed.

End Running.

(** ** Handler specifiers *)

Section Handlers.
Context {host : Host}.

(** The split is at the rightmost place: the file name is what precedes
    the last segment, and it is empty or ends with the dot. *)
Lemma handler_split h :
  exists fnName,
    handler_fnName h = Some fnName /\
    handler_fileName h fnName +:+ fnName = h /\
    JsString.has_char "." fnName = false /\
    (handler_fileName h fnName = EmptyString /\ JsString.has_char "." h = false \/
     JsString.endsWith (handler_fileName h fnName) "." = true).
Proof.
  unfold handler_fnName, handler_fileName.
  destruct (split_shape "." h) as [[Hno Hsplit]|(p & name & Hs & Hno & Hlast)].
  - exists h. rewrite Hsplit, lastIndexOf_self, substring_empty.
    repeat split; try assumption. left. split; [reflexivity | assumption].
  - exists name. rewrite Hlast.
    assert (Hh : h = (p +:+ ".") +:+ name).
    { rewrite Hs. clear. induction p as [|c p IH]; [reflexivity|].
      rewrite !append_cons. f_equal. exact IH. }
    assert (Hfile : JsString.substring h 0 (JsString.lastIndexOf h name) = p +:+ ".").
    { rewrite Hh, lastIndexOf_suffix. apply substring_to_stem. }
    rewrite Hfile. repeat split; [congruence | assumption |].
    right. rewrite endsWith_app by (simpl; lia). reflexivity.
Qed.

(** The exported name is empty exactly for the empty specifier and for
    one that ends with a dot. *)
Lemma handler_fnName_empty h :
  handler_fnName h = Some EmptyString <-> h = EmptyString \/ JsString.endsWith h "." = true.
Proof.
  destruct (handler_split h) as (name & Hname & Hsplit & Hno & Hstem).
  rewrite Hname. split.
  - intros [= ->]. destruct Hstem as [[Hstem _]|Hstem].
    + left. rewrite <- Hsplit, Hstem. reflexivity.
    + right. rewrite <- Hsplit.
      replace (handler_fileName h EmptyString +:+ EmptyString)
        with (handler_fileName h EmptyString); [assumption|].
      generalize (handler_fileName h EmptyString). clear.
      induction s as [|c s IH]; [reflexivity|]. rewrite append_cons. f_equal. exact IH.
  - intros [->|Hends].
    + rewrite <- Hname. reflexivity.
    + destruct name as [|c name]; [reflexivity|]. exfalso.
      rewrite <- Hsplit in Hends.
      rewrite endsWith_app in Hends by (simpl; lia).
      apply endsWith_has_char in Hends. congruence.
Qed.

(** What [resolveHandler] does once the exported name is known. *)
Lemma resolveHandler_named cwd h fnName w :
  handler_fnName h = Some fnName -> fnName <> EmptyString ->
  resolveHandler cwd h w =
    let fileName := handler_fileName h fnName in
    let ts_path := path_join cwd (fileName +:+ "ts") in
    let js_path := path_join cwd (fileName +:+ "js") in
    if disk_exists ts_path then
      (after w [fse_existsSync_call ts_path], inr (fileName +:+ "ts"))
    else if disk_exists js_path then
      (after w [fse_existsSync_call ts_path; fse_existsSync_call js_path],
       inr (fileName +:+ "js"))
    else
      (after w [fse_existsSync_call ts_path; fse_existsSync_call js_path;
                console_log ("Cannot locate handler - " +:+ JsString.slice fileName 0 (-1)
                             +:+ " not found")],
       inl HandlerFileMissing).
Proof.
  intros Hname Hne. unfold resolveHandler. rewrite Hname.
  assert (Htruthy : JsString.truthy fnName = true).
  { unfold JsString.truthy. destruct (String.eqb_spec fnName EmptyString); [contradiction | reflexivity]. }
  rewrite Htruthy. cbn [negb]. cbv zeta.
  unfold bind. rewrite fse_existsSync_run.
  destruct (disk_exists (path_join cwd (handler_fileName h fnName +:+ "ts"))); [reflexivity|].
  rewrite fse_existsSync_run, after_after.
  destruct (disk_exists (path_join cwd (handler_fileName h fnName +:+ "js"))); [reflexivity|].
  rewrite console_log_run, after_after. reflexivity.
Qed.

Lemma resolveHandler_unnamed cwd h w :
  handler_fnName h = Some EmptyString ->
  resolveHandler cwd h w = (w, inl (HandlerNameUnresolvable h)).
Proof. intros Hname. unfold resolveHandler. rewrite Hname. reflexivity. Qed.

(** A handler that fails ends the resolution of the whole mapping: the
    handlers after it are not looked at and no list is returned. *)
Lemma resolveHandlers_head_fails cwd key fn rest w w' e :
  resolveHandler cwd (handler fn) w = (w', inl e) ->
  resolveHandlers cwd (Some ((key, fn) :: rest)) w = (w', inl e).
Proof.
  intros Hfails. unfold resolveHandlers. simpl.
  unfold bind. rewrite Hfails. reflexivity.
Qed.

End Handlers.

(** ** The entry-point resolver *)

Section EntryPoints.
Context {host : Host}.

(** C1 (amended). A handler specifier is rejected with
    [HandlerNameUnresolvable], before any probe of the disk, exactly when
    it is empty or ends with a dot. A non-empty specifier without any dot
    is not rejected that way: all of it is the exported name, the file
    name is empty, and [<cwd>/ts] then [<cwd>/js] are probed; when
    neither exists the failure is [HandlerFileMissing]. *)
Theorem handler_name_unresolvable_exactly (cwd h : string) (w : World) :
  (h = EmptyString \/ JsString.endsWith h "." = true ->
     resolveHandler cwd h w = (w, inl (HandlerNameUnresolvable h))) /\
  (~ (h = EmptyString \/ JsString.endsWith h "." = true) ->
     snd (resolveHandler cwd h w) <> inl (HandlerNameUnresolvable h)) /\
  (JsString.has_char "." h = false -> h <> EmptyString ->
     handler_fnName h = Some h /\
     handler_fileName h h = EmptyString /\
     resolveHandler cwd h w =
       if disk_exists (path_join cwd "ts") then
         (after w [fse_existsSync_call (path_join cwd "ts")], inr "ts")
       else if disk_exists (path_join cwd "js") then
         (after w [fse_existsSync_call (path_join cwd "ts");
                   fse_existsSync_call (path_join cwd "js")], inr "js")
       else
         (after w [fse_existsSync_call (path_join cwd "ts");
                   fse_existsSync_call (path_join cwd "js");
                   console_log "Cannot locate handler -  not found"],
          inl HandlerFileMissing)).
Proof.
  split; [|split].
  - intros Hempty. apply resolveHandler_unnamed, handler_fnName_empty, Hempty.
  - intros Hnot Hres.
    destruct (handler_split h) as (name & Hname & _).
    destruct (String.eqb_spec name EmptyString) as [->|Hne].
    + apply Hnot, handler_fnName_empty, Hname.
    + rewrite (resolveHandler_named cwd h name w Hname Hne) in Hres. cbv zeta in Hres.
      repeat match type of Hres with
             | context [if ?b then _ else _] => destruct b
             end; discriminate Hres.
  - intros Hno Hne.
    destruct (split_shape "." h) as [[_ Hsplit]|(p & name & Hs & _ & _)].
    + assert (Hname : handler_fnName h = Some h).
      { unfold handler_fnName. rewrite Hsplit. reflexivity. }
      assert (Hfile : handler_fileName h h = EmptyString).
      { unfold handler_fileName. rewrite lastIndexOf_self. apply substring_empty. }
      repeat split; [assumption | assumption |].
      rewrite (resolveHandler_named cwd h h w Hname Hne). cbv zeta. rewrite Hfile.
      reflexivity.
    + exfalso. rewrite Hs in Hno. clear - Hno.
      induction p as [|c p IH].
      * rewrite append_nil_l in Hno. simpl in Hno. discriminate.
      * rewrite append_cons in Hno. simpl in Hno.
        apply orb_false_iff in Hno as [_ Hno]. exact (IH Hno).
Qed.

(** C8. The handler ["src/a.b.handler"] is split at the rightmost
    occurrence of its last segment: the exported name is ["handler"] and
    the file name is ["src/a.b."], dot included. Resolution probes
    [src/a.b.ts], then [src/a.b.js], under [cwd] and returns the first
    that exists. The same split holds of every handler: the file name
    followed by the exported name is the handler again, and the exported
    name has no dot. *)
Theorem handler_split_rightmost (cwd : string) (w : World) :
  handler_fnName "src/a.b.handler" = Some "handler" /\
  handler_fileName "src/a.b.handler" "handler" = "src/a.b." /\
  resolveHandler cwd "src/a.b.handler" w =
    (if disk_exists (path_join cwd "src/a.b.ts") then
       (after w [fse_existsSync_call (path_join cwd "src/a.b.ts")], inr "src/a.b.ts")
     else if disk_exists (path_join cwd "src/a.b.js") then
       (after w [fse_existsSync_call (path_join cwd "src/a.b.ts");
                 fse_existsSync_call (path_join cwd "src/a.b.js")], inr "src/a.b.js")
     else
       (after w [fse_existsSync_call (path_join cwd "src/a.b.ts");
                 fse_existsSync_call (path_join cwd "src/a.b.js");
                 console_log "Cannot locate handler - src/a.b not found"],
        inl HandlerFileMissing)) /\
  (forall h, exists fnName,
      handler_fnName h = Some fnName /\
      handler_fileName h fnName +:+ fnName = h /\
      JsString.has_char "." fnName = false).
Proof.
  split; [reflexivity|]. split; [reflexivity|]. split.
  - rewrite (resolveHandler_named cwd "src/a.b.handler" "handler" w);
      [reflexivity | reflexivity | discriminate].
  - intros h. destruct (handler_split h) as (name & Hname & Hsplit & Hno & _).
    exists name. auto.
Qed.

Lemma resolveHandlers_none cwd functions w :
  functions = None \/ functions = Some [] -> resolveHandlers cwd functions w = (w, inr []).
Proof. intros [->| ->]; reflexivity. Qed.

Lemma extractFileNames_generic cwd provider functions w :
  provider <> "google" ->
  extractFileNames cwd provider functions w = resolveHandlers cwd functions w.
Proof.
  intros Hne. unfold extractFileNames.
  destruct (String.eqb_spec provider "google"); [contradiction | reflexivity].
Qed.

Lemma extractFileNames_no_manifest cwd functions w :
  disk_exists (path_join cwd "package.json") = false ->
  extractFileNames cwd "google" functions w =
    resolveHandlers cwd functions
      (after w [fse_existsSync_call (path_join cwd "package.json")]).
Proof.
  intros Hmissing. unfold extractFileNames. rewrite String.eqb_refl. cbv zeta.
  unfold bind at 1. rewrite fse_existsSync_run, Hmissing. reflexivity.
Qed.

(** What the Google branch does with a manifest that is there and can
    be read and parsed. *)
Lemma extractFileNames_manifest cwd functions w text packageFile main :
  disk_exists (path_join cwd "package.json") = true ->
  disk_read (path_join cwd "package.json") = inr text ->
  JSON_parse text = inr packageFile ->
  manifest_main packageFile = inr main ->
  extractFileNames cwd "google" functions w =
    let manifest := path_join cwd "package.json" in
    if disk_exists (path_join cwd main) then
      (after w [fse_existsSync_call manifest; fse_readFileSync_call manifest;
                fse_existsSync_call (path_join cwd main)],
       inr [main])
    else
      (after w [fse_existsSync_call manifest; fse_readFileSync_call manifest;
                fse_existsSync_call (path_join cwd main);
                console_log ("Cannot locate entrypoint, " +:+ main +:+ " not found")],
       inl ManifestEntrypointMissing).
Proof.
  intros Hexists Hread Hparse Hmain. unfold extractFileNames.
  rewrite String.eqb_refl. cbv zeta.
  unfold bind at 1. rewrite fse_existsSync_run, Hexists.
  unfold bind at 1. unfold fse_readFileSync. unfold bind at 1.
  rewrite emit_event_run, Hread. cbn [of_result ret]. rewrite after_after.
  unfold bind at 1. rewrite Hparse. cbn [of_result ret].
  unfold bind at 1. rewrite Hmain. cbn [of_result ret].
  unfold bind at 1. rewrite fse_existsSync_run, after_after.
  destruct (disk_exists (path_join cwd main)); cbn [negb]; [reflexivity|].
  unfold bind. rewrite console_log_run, after_after. reflexivity.
Qed.

(** C10. With no handler mapping, or an empty one, the resolver returns
    the empty list and raises nothing. For a target other than
    ["google"] it has no effect at all; for ["google"] without a manifest
    the only access to the disk is the probe for the manifest. No
    entry-point file is probed. *)
Theorem no_handlers_no_entry_points (cwd provider : string)
    (functions : option (list (string * ServerlessTSFunction))) (w : World) :
  functions = None \/ functions = Some [] ->
  (provider <> "google" -> extractFileNames cwd provider functions w = (w, inr [])) /\
  (disk_exists (path_join cwd "package.json") = false ->
     extractFileNames cwd "google" functions w =
       (after w [fse_existsSync_call (path_join cwd "package.json")], inr [])).
Proof.
  intros Hnone. split.
  - intros Hne. rewrite extractFileNames_generic by assumption.
    apply resolveHandlers_none, Hnone.
  - intros Hmissing. rewrite extractFileNames_no_manifest by assumption.
    apply resolveHandlers_none, Hnone.
Qed.

End EntryPoints.

Section EntryPointExamples.

(** C1, as stated, fails: the handler ["handler"] has no dot, and in a
    project with no files its resolution fails with [HandlerFileMissing],
    after probing [/proj/ts] and [/proj/js]. *)
Lemma handler_without_dot_is_file_missing :
  JsString.has_char "." "handler" = false /\
  extractFileNames (host := Fixture.empty_project) "/proj" "aws" (Some Fixture.hello)
      Fixture.empty_world =
    ({| heap := [];
        trace := [fse_existsSync_call "/proj/ts"; fse_existsSync_call "/proj/js";
                  console_log "Cannot locate handler -  not found"] |},
     inl HandlerFileMissing) /\
  HandlerFileMissing <> HandlerNameUnresolvable "handler".
Proof. split; [reflexivity|]. split; [reflexivity | discriminate]. Qed.

Lemma handler_name_unresolvable_exactly_witness :
  resolveHandler (host := Fixture.empty_project) "/proj" "src/a." Fixture.empty_world =
    (Fixture.empty_world, inl (HandlerNameUnresolvable "src/a.")) /\
  snd (resolveHandler (host := Fixture.plain_project) "/proj" "src/a.b.handler"
         Fixture.empty_world) <> inl (HandlerNameUnresolvable "src/a.b.handler") /\
  resolveHandler (host := Fixture.empty_project) "/proj" "handler" Fixture.empty_world =
    (after Fixture.empty_world
       [fse_existsSync_call "/proj/ts"; fse_existsSync_call "/proj/js";
        console_log "Cannot locate handler -  not found"],
     inl HandlerFileMissing).
Proof.
  split; [|split].
  - apply (handler_name_unresolvable_exactly (host := Fixture.empty_project)).
    right. reflexivity.
  - apply (handler_name_unresolvable_exactly (host := Fixture.plain_project)).
    intros [Hempty|Hends]; discriminate.
  - apply (handler_name_unresolvable_exactly (host := Fixture.empty_project));
      [reflexivity | discriminate].
Defined.

Lemma no_handlers_no_entry_points_witness :
  extractFileNames (host := Fixture.plain_project) "/proj" "aws" None Fixture.empty_world =
    (Fixture.empty_world, inr []) /\
  extractFileNames (host := Fixture.plain_project) "/proj" "google" (Some [])
      Fixture.empty_world =
    (after Fixture.empty_world [fse_existsSync_call "/proj/package.json"], inr []).
Proof.
  split.
  - apply (no_handlers_no_entry_points (host := Fixture.plain_project));
      [left; reflexivity | discriminate].
  - apply (no_handlers_no_entry_points (host := Fixture.plain_project) "/proj" "google");
      [right; reflexivity | reflexivity].
Defined.

End EntryPointExamples.

(** ** The compilation runner *)

Section Runner.
Context {compiler : TypeScript}.

Lemma printDiagnostic_run d w :
  printDiagnostic d w = (after w (printed_lines [d]), inr tt).
Proof.
  unfold printDiagnostic, printed_lines, diagnostic_line. simpl.
  destruct (ts.file d) as [file|]; [|rewrite after_nil; reflexivity].
  destruct (ts.start d) as [start|]; [|rewrite after_nil; reflexivity].
  destruct (start =? 0); simpl; [rewrite after_nil; reflexivity | reflexivity].
Qed.

Lemma printed_lines_cons d ds : printed_lines (d :: ds) = printed_lines [d] ++ printed_lines ds.
Proof.
  unfold printed_lines. simpl. destruct (diagnostic_line d); reflexivity.
Qed.

Lemma forEach_printDiagnostic_run ds w :
  forEach printDiagnostic ds w = (after w (printed_lines ds), inr tt).
Proof.
  revert w. induction ds as [|d ds IH]; intros w.
  - simpl. rewrite after_nil. reflexivity.
  - cbn [forEach]. unfold bind. rewrite printDiagnostic_run, IH, after_after.
    rewrite <- printed_lines_cons. reflexivity.
Qed.

(** [run], step by step, on a reference that points to [o]. *)
Lemma run_run fileNames options o w :
  heap w !! options = Some o ->
  run fileNames options w =
    let o' := <["listEmittedFiles" := ts.VBool true]> o in
    let program := createProgram fileNames o' in
    let emitResult := emit program in
    let w' := {| heap := <[options := o']> (heap w);
                 trace := trace w ++ printed_lines (getPreEmitDiagnostics program
                                                    ++ ts.diagnostics emitResult) |} in
    if ts.emitSkipped emitResult then (w', inl CompilationFailedError)
    else (w', inr (List.filter (fun filename => JsString.endsWith filename ".js")
                     <$> ts.emittedFiles emitResult)).
Proof.
  intros Hlive. unfold run.
  unfold bind at 1. unfold set_property. rewrite Hlive.
  unfold bind at 1. unfold read_object. cbn [heap trace].
  rewrite list_lookup_insert_eq by (eapply lookup_lt_Some; eassumption).
  unfold bind at 1. rewrite forEach_printDiagnostic_run. unfold after. cbn [heap trace].
  cbv zeta. destruct (ts.emitSkipped _); reflexivity.
Qed.

(** C3. When the engine's emit result has the emit-skipped flag set,
    [run] raises [CompilationFailedError], and by then every diagnostic
    that is printed has been printed: the pre-emit ones, then the
    emit-time ones. When the flag is not set, [run] returns. Nothing else
    decides between the two: not the number of diagnostics, not their
    categories. *)
Theorem run_fails_exactly_when_emit_skipped (fileNames : list string) (options : ref)
    (o : ts.CompilerOptions) (w : World) :
  heap w !! options = Some o ->
  let program := createProgram fileNames (<["listEmittedFiles" := ts.VBool true]> o) in
  let allDiagnostics := getPreEmitDiagnostics program ++ ts.diagnostics (emit program) in
  trace (fst (run fileNames options w)) = trace w ++ printed_lines allDiagnostics /\
  (ts.emitSkipped (emit program) = true ->
     snd (run fileNames options w) = inl CompilationFailedError) /\
  (ts.emitSkipped (emit program) = false ->
     exists files, snd (run fileNames options w) = inr files).
Proof.
  intros Hlive program allDiagnostics. subst program allDiagnostics.
  rewrite (run_run fileNames options o w Hlive). cbv zeta.
  destruct (ts.emitSkipped _); (split; [reflexivity|]); split; intros Hflag;
    try discriminate Hflag; [reflexivity | eexists; reflexivity].
Qed.

Lemma not_js_suffix stem suffix :
  (3 <= String.length suffix)%nat -> JsString.endsWith suffix ".js" = false ->
  JsString.endsWith (stem +:+ suffix) ".js" = false.
Proof. intros Hlen Hno. rewrite endsWith_app by exact Hlen. exact Hno. Qed.

(** C9. When the emit is not skipped, [run] returns the engine's list of
    emitted files filtered to the paths that end in [".js"], in the
    engine's order. Source maps ([.js.map]) and declarations ([.d.ts])
    are not among them, even when the engine lists them. *)
Theorem run_returns_js_outputs (fileNames : list string) (options : ref)
    (o : ts.CompilerOptions) (w : World) (files : list string) :
  heap w !! options = Some o ->
  let program := createProgram fileNames (<["listEmittedFiles" := ts.VBool true]> o) in
  ts.emitSkipped (emit program) = false ->
  ts.emittedFiles (emit program) = Some files ->
  exists js_files,
    snd (run fileNames options w) = inr (Some js_files) /\
    js_files = List.filter (fun filename => JsString.endsWith filename ".js") files /\
    (forall f, In f js_files <-> In f files /\ JsString.endsWith f ".js" = true) /\
    (forall stem, ~ In (stem +:+ ".js.map") js_files /\ ~ In (stem +:+ ".d.ts") js_files).
Proof.
  intros Hlive program Hflag Hfiles. subst program.
  rewrite (run_run fileNames options o w Hlive). cbv zeta. rewrite Hflag, Hfiles.
  eexists. split; [reflexivity|]. split; [reflexivity|]. split.
  - intros f. apply (List.filter_In (fun filename => JsString.endsWith filename ".js")).
  - intros stem. split; intros Hin; apply List.filter_In in Hin as [_ Hends];
      rewrite not_js_suffix in Hends; try discriminate; try reflexivity; simpl; lia.
Qed.

(** C6 (amended). [run] changes the caller's options object in one
    place: it sets [listEmittedFiles] to [true]. Every other field of
    that object holds the same value after [run] as before the call,
    whether [run] returns or throws, and no other object is touched. *)
Theorem run_sets_only_listEmittedFiles (fileNames : list string) (options : ref)
    (o : ts.CompilerOptions) (w : World) :
  heap w !! options = Some o ->
  let w' := fst (run fileNames options w) in
  property_of w' options "listEmittedFiles" = Some (ts.VBool true) /\
  (forall key, key <> "listEmittedFiles" ->
     property_of w' options key = property_of w options key) /\
  (forall other : ref, other <> options -> heap w' !! other = heap w !! other).
Proof.
  intros Hlive w'. subst w'.
  rewrite (run_run fileNames options o w Hlive). cbv zeta.
  assert (Hbound : (options < length (heap w))%nat) by (eapply lookup_lt_Some; eassumption).
  destruct (ts.emitSkipped _); unfold property_of; cbn [fst heap];
    rewrite list_lookup_insert_eq by assumption; rewrite Hlive;
    (split; [apply lookup_insert_eq|]); split.
  - intros key Hkey. apply lookup_insert_ne. congruence.
  - intros other Hother. apply list_lookup_insert_ne. congruence.
  - intros key Hkey. apply lookup_insert_ne. congruence.
  - intros other Hother. apply list_lookup_insert_ne. congruence.
Qed.

End Runner.

Section RunnerExamples.

Lemma run_fails_exactly_when_emit_skipped_witness :
  (trace (fst (run (compiler := Fixture.compiling Fixture.skipped_program) ["src/app.ts"] 0
                 (Fixture.world_with defaultTypescriptConfig))) =
     [console_log "src/app.ts (3,6): not assignable";
      console_log "src/app.ts (5,8): not callable"] /\
   snd (run (compiler := Fixture.compiling Fixture.skipped_program) ["src/app.ts"] 0
          (Fixture.world_with defaultTypescriptConfig)) = inl CompilationFailedError) /\
  exists files,
    snd (run (compiler := Fixture.compiling Fixture.clean_program) ["src/app.ts"] 0
           (Fixture.world_with defaultTypescriptConfig)) = inr files.
Proof.
  split.
  - destruct (run_fails_exactly_when_emit_skipped
                (compiler := Fixture.compiling Fixture.skipped_program)
                ["src/app.ts"] 0 defaultTypescriptConfig
                (Fixture.world_with defaultTypescriptConfig) eq_refl)
      as (Htrace & Hfail & _).
    split; [rewrite Htrace; vm_compute; reflexivity | apply Hfail; reflexivity].
  - apply (run_fails_exactly_when_emit_skipped
             (compiler := Fixture.compiling Fixture.clean_program)
             ["src/app.ts"] 0 defaultTypescriptConfig
             (Fixture.world_with defaultTypescriptConfig) eq_refl).
    reflexivity.
Defined.

Lemma run_returns_js_outputs_witness :
  snd (run (compiler := Fixture.compiling Fixture.clean_program) ["src/app.ts"] 0
         (Fixture.world_with defaultTypescriptConfig)) =
    inr (Some ["dist/app.js"; "dist/lib.js"]).
Proof.
  destruct (run_returns_js_outputs (compiler := Fixture.compiling Fixture.clean_program)
              ["src/app.ts"] 0 defaultTypescriptConfig
              (Fixture.world_with defaultTypescriptConfig)
              ["dist/app.js"; "dist/app.js.map"; "dist/app.d.ts"; "dist/lib.js"]
              eq_refl eq_refl eq_refl) as (js_files & Hrun & Hfilter & _).
  rewrite Hrun, Hfilter. vm_compute. reflexivity.
Defined.

(** C6, as stated, fails: handed an options object without
    [listEmittedFiles], [run] returns and the caller's object has
    [listEmittedFiles] set to [true]. *)
Lemma run_changes_listEmittedFiles :
  property_of (Fixture.world_with ∅) 0 "listEmittedFiles" = None /\
  snd (run (compiler := Fixture.compiling Fixture.clean_program) ["src/app.ts"] 0
         (Fixture.world_with ∅)) = inr (Some ["dist/app.js"; "dist/lib.js"]) /\
  property_of (fst (run (compiler := Fixture.compiling Fixture.clean_program) ["src/app.ts"] 0
                      (Fixture.world_with ∅))) 0 "listEmittedFiles" = Some (ts.VBool true).
Proof. split; [|split]; vm_compute; reflexivity. Qed.

Lemma run_sets_only_listEmittedFiles_witness :
  property_of (fst (run (compiler := Fixture.compiling Fixture.clean_program) ["src/app.ts"] 0
                      (Fixture.world_with defaultTypescriptConfig))) 0 "rootDir" =
    Some (ts.VString "./").
Proof.
  destruct (run_sets_only_listEmittedFiles (compiler := Fixture.compiling Fixture.clean_program)
              ["src/app.ts"] 0 defaultTypescriptConfig
              (Fixture.world_with defaultTypescriptConfig) eq_refl) as (_ & Hframe & _).
  rewrite Hframe; [vm_compute; reflexivity | discriminate].
Defined.

(** C7. A diagnostic that carries a file and the start offset [0] is
    not printed: [run] tests the offset for truthiness. The compilation
    below has one error at the first character of [src/app.ts]; it should
    be printed as ["src/app.ts (1,1): not a module"], and nothing is. *)
Theorem diagnostic_at_offset_zero_not_printed :
  (forall (compiler : TypeScript) cat code file text w,
      printDiagnostic (compiler := compiler)
        {| ts.category := cat; ts.code := code; ts.file := Some file;
           ts.start := Some 0; ts.messageText := text |} w = (w, inr tt)) /\
  run (compiler := Fixture.compiling Fixture.first_character_program) ["src/app.ts"] 0
      (Fixture.world_with ∅) =
    ({| heap := [{[ "listEmittedFiles" := ts.VBool true ]}]; trace := [] |},
     inr (Some ["dist/app.js"])).
Proof. split; [reflexivity | vm_compute; reflexivity]. Qed.

End RunnerExamples.

(** ** The config resolver *)

Section Config.
Context {host : Host} {compiler : TypeScript}.

Lemma log_run l line w : log l line w = (after w [logger_log line], inr tt).
Proof. reflexivity. Qed.

Lemma new_object_run o w :
  new_object o w = ({| heap := heap w ++ [o]; trace := trace w |}, inr (length (heap w))).
Proof. reflexivity. Qed.

(** [getTypescriptConfig], step by step, on a config file that is
    there, can be read, and parses and validates without errors. *)
Lemma getTypescriptConfig_present cwd tsconfigFilePath logger w text differs :
  let configFilePath := path_join cwd (default "tsconfig.json" tsconfigFilePath) in
  let result := parseConfigFileTextToJson configFilePath text in
  let configParseResult :=
    parseJsonConfigFileContent (ts.config result) (path_dirname configFilePath) in
  disk_exists configFilePath = true ->
  disk_read configFilePath = inr text ->
  ts.error result = None ->
  ts.errors configParseResult = [] ->
  rootDir_differs (ts.options configParseResult !! "rootDir") cwd = inr differs ->
  getTypescriptConfig cwd tsconfigFilePath logger w =
    ({| heap := heap w ++ [<["rootDir" := ts.VString cwd]> (ts.options configParseResult)];
        trace := trace w ++ config_events configFilePath logger differs |},
     inr (length (heap w))).
Proof.
  intros configFilePath result configParseResult Hexists Hread Hparse Hvalid Hdiffers.
  unfold getTypescriptConfig. cbv zeta.
  fold configFilePath. unfold bind at 1. rewrite fse_existsSync_run, Hexists.
  unfold bind at 1. unfold fse_readFileSync. unfold bind at 1.
  rewrite emit_event_run, Hread. cbn [of_result ret]. rewrite after_after.
  fold result. rewrite Hparse. fold configParseResult.
  unfold bind at 1. rewrite new_object_run. rewrite Hvalid. cbn [length Nat.ltb Nat.leb].
  assert (Hread_new : forall (hp : list ts.CompilerOptions) o tr,
             read_object (length hp) {| heap := hp ++ [o]; trace := tr |} =
             ({| heap := hp ++ [o]; trace := tr |}, inr o)).
  { intros hp o tr. unfold read_object. cbn [heap].
    rewrite lookup_app_r by lia. rewrite Nat.sub_diag. reflexivity. }
  assert (Hset_new : forall (hp : list ts.CompilerOptions) o tr key v,
             set_property (length hp) key v {| heap := hp ++ [o]; trace := tr |} =
             ({| heap := hp ++ [<[key := v]> o]; trace := tr |}, inr tt)).
  { intros hp o tr key v. unfold set_property. cbn [heap trace].
    rewrite lookup_app_r by lia. rewrite Nat.sub_diag. cbn [lookup list_lookup].
    rewrite insert_app_r_alt by lia. rewrite Nat.sub_diag. reflexivity. }
  unfold config_events, after. cbn [heap trace]. destruct logger as [l|].
  - unfold bind at 1. rewrite log_run. unfold after. cbn [heap trace].
    unfold bind at 1. rewrite Hread_new.
    unfold bind at 1. rewrite Hdiffers. cbn [of_result ret].
    destruct differs.
    + unfold bind at 1. rewrite log_run. unfold after. cbn [heap trace].
      unfold bind. rewrite Hset_new. cbn [ret]. rewrite <- !app_assoc. reflexivity.
    + unfold bind at 1. cbn [ret].
      unfold bind. rewrite Hset_new. cbn [ret]. rewrite <- !app_assoc. reflexivity.
  - unfold bind at 1. cbn [ret].
    unfold bind at 1. rewrite Hread_new.
    unfold bind at 1. rewrite Hdiffers. cbn [of_result ret].
    unfold bind at 1. cbn [ret].
    unfold bind. rewrite Hset_new. cbn [ret]. rewrite app_nil_r. reflexivity.
Qed.

Lemma rootDir_differs_typed (o : ts.CompilerOptions) cwd :
  (forall v, o !! "rootDir" = Some v -> exists dir, v = ts.VString dir) ->
  exists differs,
    rootDir_differs (o !! "rootDir") cwd = inr differs /\
    (differs = true <->
     exists dir, o !! "rootDir" = Some (ts.VString dir) /\ dir <> EmptyString /\
                 path_resolve dir <> path_resolve cwd).
Proof.
  intros Htyped. unfold rootDir_differs.
  destruct (o !! "rootDir") as [v|] eqn:Hroot.
  - destruct (Htyped v eq_refl) as [dir ->]. cbn [option_truthy]. unfold JsString.truthy.
    destruct (String.eqb_spec dir EmptyString) as [->|Hdir]; cbn [negb].
    + exists false. split; [reflexivity|]. split; [discriminate|].
      intros (dir & [= <-] & Hne & _). contradiction.
    + eexists. split; [reflexivity|].
      destruct (String.eqb_spec (path_resolve dir) (path_resolve cwd)) as [Heq|Hneq];
        cbn [negb]; split; try discriminate; try reflexivity.
      * intros (dir' & [= <-] & _ & Hneq). contradiction.
      * intros _. exists dir. auto.
  - exists false. split; [reflexivity|]. split; [discriminate|].
    intros (dir & Hsome & _). discriminate.
Qed.

(** C2. When the config file is there, is read, and parses and validates
    without errors, [getTypescriptConfig] returns an options object
    whose [rootDir] is the [cwd] it was given, whatever [rootDir] the
    file had, and whose other fields are the file's. This does not
    depend on a logger: without one, nothing is logged and the override
    still happens. With one, the warning is logged when the file's
    [rootDir] names another directory than [cwd], and only then. The
    file's [rootDir], if any, is a string, as its type says. *)
Theorem config_rootDir_is_cwd (cwd : string) (tsconfigFilePath : option string)
    (logger : option Logger) (w : World) (text : string) :
  let configFilePath := path_join cwd (default "tsconfig.json" tsconfigFilePath) in
  let result := parseConfigFileTextToJson configFilePath text in
  let configParseResult :=
    parseJsonConfigFileContent (ts.config result) (path_dirname configFilePath) in
  let fileOptions := ts.options configParseResult in
  let differs := exists dir, fileOptions !! "rootDir" = Some (ts.VString dir) /\
                             dir <> EmptyString /\ path_resolve dir <> path_resolve cwd in
  disk_exists configFilePath = true ->
  disk_read configFilePath = inr text ->
  ts.error result = None ->
  ts.errors configParseResult = [] ->
  (forall v, fileOptions !! "rootDir" = Some v -> exists dir, v = ts.VString dir) ->
  let w' := fst (getTypescriptConfig cwd tsconfigFilePath logger w) in
  exists options,
    snd (getTypescriptConfig cwd tsconfigFilePath logger w) = inr options /\
    property_of w' options "rootDir" = Some (ts.VString cwd) /\
    (forall key, key <> "rootDir" -> property_of w' options key = fileOptions !! key) /\
    (logger = None ->
       trace w' = trace w ++ [fse_existsSync_call configFilePath;
                              fse_readFileSync_call configFilePath]) /\
    (is_Some logger -> differs ->
       trace w' = trace w ++ [fse_existsSync_call configFilePath;
                              fse_readFileSync_call configFilePath;
                              logger_log (using_local_tsconfig configFilePath);
                              logger_log rootDir_overriden_warning]) /\
    (is_Some logger -> ~ differs ->
       trace w' = trace w ++ [fse_existsSync_call configFilePath;
                              fse_readFileSync_call configFilePath;
                              logger_log (using_local_tsconfig configFilePath)]).
Proof.
  intros configFilePath result configParseResult fileOptions differs
         Hexists Hread Hparse Hvalid Htyped w'.
  destruct (rootDir_differs_typed fileOptions cwd Htyped) as (b & Hb & Hb_iff).
  subst w'.
  rewrite (getTypescriptConfig_present cwd tsconfigFilePath logger w text b
             Hexists Hread Hparse Hvalid Hb).
  fold configFilePath result configParseResult fileOptions.
  exists (length (heap w)). cbn [fst snd]. unfold property_of. cbn [heap trace].
  rewrite lookup_app_r by lia. rewrite Nat.sub_diag. cbn [lookup list_lookup].
  split; [reflexivity|]. split; [apply lookup_insert_eq|].
  split; [intros key Hkey; apply lookup_insert_ne; congruence|].
  unfold config_events. split; [|split].
  - intros ->. reflexivity.
  - intros [l ->] Hdiffers. apply Hb_iff in Hdiffers. subst b. reflexivity.
  - intros [l ->] Hsame. destruct b; [|reflexivity].
    exfalso. apply Hsame, Hb_iff. reflexivity.
Qed.

(** C4. When nothing exists at [<cwd>/<configFileName>],
    [getTypescriptConfig] raises no error and returns a new object with
    the default options, after the one probe of the disk. The defaults
    are the documented ones; the object has five further flags, all
    [true], and nothing else. *)
Theorem missing_config_gives_defaults (cwd : string) (tsconfigFilePath : option string)
    (logger : option Logger) (w : World) :
  let configFilePath := path_join cwd (default "tsconfig.json" tsconfigFilePath) in
  disk_exists configFilePath = false ->
  getTypescriptConfig cwd tsconfigFilePath logger w =
    ({| heap := heap w ++ [defaultTypescriptConfig];
        trace := trace w ++ [fse_existsSync_call configFilePath] |},
     inr (length (heap w))) /\
  Forall (fun '(key, value) => defaultTypescriptConfig !! key = Some value)
    [("module", ts.VModuleKind ts.CommonJS);
     ("target", ts.VScriptTarget ts.ES5);
     ("lib", ts.VStrings ["ES2020"]);
     ("allowJs", ts.VBool true);
     ("checkJs", ts.VBool true);
     ("strict", ts.VBool true);
     ("noImplicitAny", ts.VBool true);
     ("strictNullChecks", ts.VBool true);
     ("strictFunctionTypes", ts.VBool true);
     ("strictBindCallApply", ts.VBool true);
     ("strictPropertyInitialization", ts.VBool true);
     ("noImplicitThis", ts.VBool true);
     ("alwaysStrict", ts.VBool true);
     ("moduleResolution", ts.VModuleResolutionKind ts.NodeJs);
     ("esModuleInterop", ts.VBool true);
     ("experimentalDecorators", ts.VBool true);
     ("emitDecoratorMetadata", ts.VBool true);
     ("forceConsistentCasingInFileNames", ts.VBool true);
     ("sourceMap", ts.VBool true);
     ("rootDir", ts.VString "./")] /\
  Forall (fun key => defaultTypescriptConfig !! key = Some (ts.VBool true))
    ["noUnusedLocals"; "noUnusedParameters"; "noImplicitReturns";
     "noFallthroughCasesInSwitch"; "preserveConstEnums"] /\
  size defaultTypescriptConfig = 25%nat.
Proof.
  intros configFilePath Hmissing. split; [|split; [|split]].
  - unfold getTypescriptConfig. cbv zeta. fold configFilePath.
    unfold bind. rewrite fse_existsSync_run, Hmissing.
    unfold makeDefaultTypescriptConfig. rewrite new_object_run. reflexivity.
  - repeat constructor.
  - repeat constructor.
  - vm_compute. reflexivity.
Qed.

End Config.

Section ConfigExamples.

Lemma config_rootDir_is_cwd_witness :
  property_of (fst (getTypescriptConfig (host := Fixture.configured_project)
                      (compiler := Fixture.configured_compiler) "/proj" None
                      (Some logger_object) Fixture.empty_world)) 0 "rootDir" =
    Some (ts.VString "/proj") /\
  trace (fst (getTypescriptConfig (host := Fixture.configured_project)
                (compiler := Fixture.configured_compiler) "/proj" None
                (Some logger_object) Fixture.empty_world)) =
    [fse_existsSync_call "/proj/tsconfig.json";
     fse_readFileSync_call "/proj/tsconfig.json";
     logger_log (using_local_tsconfig "/proj/tsconfig.json");
     logger_log rootDir_overriden_warning].
Proof.
  destruct (config_rootDir_is_cwd (host := Fixture.configured_project)
              (compiler := Fixture.configured_compiler) "/proj" None (Some logger_object)
              Fixture.empty_world "{ }" eq_refl eq_refl eq_refl eq_refl)
    as (options & Hreturn & Hroot & _ & _ & Hwarning & _).
  - intros v Hv. vm_compute in Hv. injection Hv as <-. eexists. reflexivity.
  - split.
    + replace 0%nat with options; [exact Hroot|].
      vm_compute in Hreturn. injection Hreturn as <-. reflexivity.
    + rewrite Hwarning; [reflexivity | eexists; reflexivity |].
      exists "/proj/src". split; [reflexivity|]. split; [discriminate|].
      intros Hsame. vm_compute in Hsame. discriminate Hsame.
Defined.

Lemma missing_config_gives_defaults_witness :
  getTypescriptConfig (host := Fixture.empty_project)
      (compiler := Fixture.compiling Fixture.clean_program) "/proj" None None
      Fixture.empty_world =
    ({| heap := [defaultTypescriptConfig];
        trace := [fse_existsSync_call "/proj/tsconfig.json"] |},
     inr 0%nat).
Proof.
  apply (missing_config_gives_defaults (host := Fixture.empty_project)
           (compiler := Fixture.compiling Fixture.clean_program) "/proj" None None
           Fixture.empty_world).
  reflexivity.
Defined.

End ConfigExamples.

(** ** More on the entry-point resolver *)

Section EntryPointsMore.
Context {host : Host}.

Lemma resolveHandlers_mapM cwd functions :
  resolveHandlers cwd functions = mapM (resolveHandler cwd) (handlers_of functions).
Proof. reflexivity. Qed.

Lemma mapM_cons_run {A B} (f : A -> M B) x xs w :
  mapM f (x :: xs) w =
    match f x w with
    | (w1, inr y) =>
        match mapM f xs w1 with
        | (w2, inr ys) => (w2, inr (y :: ys))
        | (w2, inl e) => (w2, inl e)
        end
    | (w1, inl e) => (w1, inl e)
    end.
Proof.
  cbn [mapM]. unfold bind. destruct (f x w) as [w1 [e|y]]; [reflexivity|].
  destruct (mapM f xs w1) as [w2 [e|ys]]; reflexivity.
Qed.

Lemma resolveHandler_returns cwd h w w' p :
  resolveHandler cwd h w = (w', inr p) -> resolved_from cwd h p.
Proof.
  intros Hres. destruct (handler_split h) as (name & Hname & _).
  destruct (String.eqb_spec name EmptyString) as [->|Hne].
  - rewrite (resolveHandler_unnamed cwd h w Hname) in Hres. discriminate.
  - rewrite (resolveHandler_named cwd h name w Hname Hne) in Hres. cbv zeta in Hres.
    exists name. split; [assumption|]. split; [assumption|].
    destruct (disk_exists (path_join cwd (handler_fileName h name +:+ "ts"))) eqn:Hts.
    + apply pair_equal_spec in Hres as [_ [= <-]].
      split; [left; reflexivity | first [exact Hts | reflexivity]].
    + destruct (disk_exists (path_join cwd (handler_fileName h name +:+ "js"))) eqn:Hjs;
        [|discriminate].
      apply pair_equal_spec in Hres as [_ [= <-]].
      split; [right; split; [reflexivity | first [exact Hts | reflexivity]]
             | first [exact Hjs | reflexivity]].
Qed.

Lemma mapM_resolveHandler_returns cwd hs w w' files :
  mapM (resolveHandler cwd) hs w = (w', inr files) -> Forall2 (resolved_from cwd) hs files.
Proof.
  revert w w' files. induction hs as [|h hs IH]; intros w w' files Hres.
  - apply pair_equal_spec in Hres as [_ [= <-]]. constructor.
  - rewrite mapM_cons_run in Hres.
    destruct (resolveHandler cwd h w) as [w1 [e|p]] eqn:Hhead; [discriminate|].
    destruct (mapM (resolveHandler cwd) hs w1) as [w2 [e|ps]] eqn:Htail; [discriminate|].
    apply pair_equal_spec in Hres as [_ [= <-]]. constructor.
    + eapply resolveHandler_returns, Hhead.
    + eapply IH, Htail.
Qed.

Lemma resolved_paths_exist cwd hs files :
  Forall2 (resolved_from cwd) hs files ->
  Forall (fun p => disk_exists (path_join cwd p) = true) files.
Proof.
  induction 1 as [|h p hs ps Hhp _ IH]; constructor; [|assumption].
  destruct Hhp as (name & _ & _ & _ & Hexists). assumption.
Qed.

(** X1. Every path that [extractFileNames] returns existed under [cwd]
    when it was probed, for every target and every mapping. *)
Theorem entry_points_exist (cwd provider : string)
    (functions : option (list (string * ServerlessTSFunction))) (w w' : World)
    (files : list string) :
  extractFileNames cwd provider functions w = (w', inr files) ->
  Forall (fun p => disk_exists (path_join cwd p) = true) files.
Proof.
  intros Hres.
  assert (Hgeneric : forall w0, resolveHandlers cwd functions w0 = (w', inr files) ->
                                Forall (fun p => disk_exists (path_join cwd p) = true) files).
  { intros w0 H0. rewrite resolveHandlers_mapM in H0.
    apply mapM_resolveHandler_returns in H0. eapply resolved_paths_exist, H0. }
  unfold extractFileNames in Hres.
  destruct (String.eqb provider "google"); [|eapply Hgeneric, Hres].
  cbv zeta in Hres. unfold bind at 1 in Hres. rewrite fse_existsSync_run in Hres.
  destruct (disk_exists (path_join cwd "package.json")); [|eapply Hgeneric, Hres].
  unfold bind at 1 in Hres. unfold fse_readFileSync in Hres. unfold bind at 1 in Hres.
  rewrite emit_event_run in Hres.
  destruct (disk_read (path_join cwd "package.json")) as [e|text]; [discriminate|].
  cbn [of_result ret] in Hres. unfold bind at 1 in Hres.
  destruct (JSON_parse text) as [e|packageFile]; [discriminate|].
  cbn [of_result ret] in Hres. unfold bind at 1 in Hres.
  destruct (manifest_main packageFile) as [e|main]; [discriminate|].
  cbn [of_result ret] in Hres. unfold bind at 1 in Hres.
  rewrite fse_existsSync_run in Hres.
  destruct (disk_exists (path_join cwd main)) eqn:Hmain; cbn [negb] in Hres.
  - apply pair_equal_spec in Hres as [_ [= <-]]. constructor; [assumption | constructor].
  - unfold bind in Hres. rewrite console_log_run in Hres. discriminate.
Qed.

(** X2. The generic resolution returns one path for each handler, in the
    order of the mapping. The path of a handler is its file name followed
    by ["ts"], or by ["js"] when the ["ts"] file is not there. *)
Theorem generic_resolution_in_handler_order (cwd : string)
    (functions : option (list (string * ServerlessTSFunction))) (w w' : World)
    (files : list string) :
  resolveHandlers cwd functions w = (w', inr files) ->
  length files = length (handlers_of functions) /\
  Forall2 (fun h p =>
             exists fnName,
               handler_fnName h = Some fnName /\ fnName <> EmptyString /\
               (p = handler_fileName h fnName +:+ "ts" \/
                p = handler_fileName h fnName +:+ "js" /\
                disk_exists (path_join cwd (handler_fileName h fnName +:+ "ts")) = false))
          (handlers_of functions) files.
Proof.
  intros Hres. rewrite resolveHandlers_mapM in Hres.
  apply mapM_resolveHandler_returns in Hres. split.
  - symmetry. eapply Forall2_length, Hres.
  - eapply Forall2_impl; [exact Hres|].
    intros h p (name & Hname & Hne & Hshape & _). exists name. auto.
Qed.

Lemma mapM_failure_cuts {A B} (f : A -> M B) before x after_ w w' e :
  mapM f (before ++ [x]) w = (w', inl e) ->
  mapM f (before ++ x :: after_) w = (w', inl e).
Proof.
  revert w w' e. induction before as [|b before IH]; intros w w' e Hfail.
  - cbn [app] in *. rewrite mapM_cons_run in Hfail. rewrite mapM_cons_run.
    destruct (f x w) as [w1 [e1|y]]; [exact Hfail|].
    cbn [mapM ret] in Hfail. discriminate.
  - rewrite <- !app_comm_cons in *. rewrite mapM_cons_run in Hfail. rewrite mapM_cons_run.
    destruct (f b w) as [w1 [e1|y]]; [exact Hfail|].
    destruct (mapM f (before ++ [x]) w1) as [w2 [e2|ys]] eqn:Hrest; [|discriminate].
    rewrite (IH w1 w2 e2 Hrest). exact Hfail.
Qed.

(** X3. The first handler that fails ends the resolution: the handlers
    after it change nothing, neither the error nor what was probed and
    printed. *)
Theorem handlers_after_failure_ignored (cwd : string)
    (before after_ : list (string * ServerlessTSFunction))
    (failing : string * ServerlessTSFunction) (w w' : World) (e : exn) :
  resolveHandlers cwd (Some (before ++ [failing])) w = (w', inl e) ->
  resolveHandlers cwd (Some (before ++ failing :: after_)) w = (w', inl e).
Proof.
  rewrite !resolveHandlers_mapM.
  change (handlers_of (Some (before ++ [failing])))
    with (handler <$> (snd <$> (before ++ [failing]))).
  change (handlers_of (Some (before ++ failing :: after_)))
    with (handler <$> (snd <$> (before ++ failing :: after_))).
  rewrite !fmap_app.
  intros Hfail. exact (mapM_failure_cuts _ _ _ _ _ _ _ Hfail).
Qed.

End EntryPointsMore.

(** ** More on strings *)

Section StringFactsMore.

Lemma append_assoc a b c : (a +:+ b) +:+ c = a +:+ (b +:+ c).
Proof.
  induction a as [|x a IH]; [reflexivity|]. rewrite !append_cons. f_equal. exact IH.
Qed.

Lemma append_nil_r s : s +:+ EmptyString = s.
Proof. induction s as [|c s IH]; [reflexivity|]. rewrite append_cons. f_equal. exact IH. Qed.

Lemma endsWith_self s : JsString.endsWith s s = true.
Proof.
  unfold JsString.endsWith. rewrite Nat.leb_refl, Nat.sub_diag.
  rewrite <- (append_nil_r s) at 2. rewrite substring_take. apply String.eqb_refl.
Qed.

Lemma endsWith_suffix s t : JsString.endsWith (s +:+ t) t = true.
Proof. rewrite endsWith_app by lia. apply endsWith_self. Qed.

(** Cutting a suffix off with a negative end index. *)
Lemma slice_drop_suffix s t :
  t <> EmptyString ->
  JsString.slice (s +:+ t) 0 (- Z.of_nat (String.length t)) = s.
Proof.
  intros Hne. unfold JsString.slice. rewrite length_app.
  assert (0 < String.length t)%nat by (destruct t; [contradiction | simpl; lia]).
  destruct (Z.ltb_spec 0 0); [lia|].
  destruct (Z.ltb_spec (- Z.of_nat (String.length t)) 0); [|lia].
  replace (Z.to_nat (Z.min 0 _)) with 0%nat by lia.
  replace (Z.to_nat (Z.max (Z.max _ 0 - Z.min 0 _) 0)) with (String.length s) by lia.
  apply substring_take.
Qed.

Lemma replace_js_at_end_js stem :
  JsString.replace_js_at_end (stem +:+ ".js") = stem +:+ ".ts".
Proof.
  unfold JsString.replace_js_at_end. rewrite endsWith_suffix.
  change (-3) with (- Z.of_nat (String.length ".js")).
  rewrite slice_drop_suffix by discriminate. reflexivity.
Qed.

Lemma split_without_sep sep s : JsString.has_char sep s = false -> JsString.split sep s = [s].
Proof.
  induction s as [|c s IH]; intros Hno; [reflexivity|].
  simpl in Hno. apply orb_false_iff in Hno as [Hc Hno]. simpl. rewrite Hc, (IH Hno).
  reflexivity.
Qed.

Lemma split_single sep s piece : JsString.split sep s = [piece] -> piece = s.
Proof.
  revert piece. induction s as [|a s IH]; intros piece Hs; simpl in Hs.
  - injection Hs as <-. reflexivity.
  - destruct (Ascii.eqb a sep).
    + injection Hs as _ Hnil. destruct (split_not_nil _ _ Hnil).
    + destruct (JsString.split sep s) as [|x [|y l]] eqn:Hx.
      * destruct (split_not_nil _ _ Hx).
      * injection Hs as <-. f_equal. apply IH. reflexivity.
      * discriminate.
Qed.

Lemma has_char_app_sep sep p name : JsString.has_char sep (p +:+ String sep name) = true.
Proof.
  induction p as [|a p IH].
  - rewrite append_nil_l. simpl. rewrite Ascii.eqb_refl. reflexivity.
  - rewrite append_cons. simpl. rewrite IH. apply orb_true_r.
Qed.

(** A string that holds the separator splits into more than one piece. *)
Lemma split_with_sep sep s piece :
  JsString.has_char sep s = true -> JsString.split sep s <> [piece].
Proof.
  intros Hhas Hsplit.
  destruct (split_shape sep s) as [[Hno _]|(q & rest & Heq & _ & Hlast)]; [congruence|].
  rewrite Hsplit in Hlast. simpl in Hlast. injection Hlast as ->.
  apply split_single in Hsplit. subst rest.
  apply (f_equal String.length) in Heq. rewrite length_app in Heq. simpl in Heq. lia.
Qed.

Lemma last_split_app sep p name :
  last (JsString.split sep (p +:+ String sep name)) = last (JsString.split sep name).
Proof.
  induction p as [|c p IH].
  - rewrite append_nil_l. simpl. rewrite Ascii.eqb_refl.
    apply last_cons_not_nil, split_not_nil.
  - rewrite append_cons. simpl. destruct (Ascii.eqb c sep).
    + rewrite last_cons_not_nil by apply split_not_nil. exact IH.
    + destruct (JsString.split sep (p +:+ String sep name)) as [|piece [|piece' pieces]]
        eqn:Hsplit.
      * destruct (split_not_nil _ _ Hsplit).
      * destruct (split_with_sep sep _ piece (has_char_app_sep sep p name) Hsplit).
      * exact IH.
Qed.

End StringFactsMore.

(** ** Handlers and manifests in general *)

Section ResolverCases.
Context {host : Host}.

Lemma dotted_handler_parts base fnName :
  JsString.has_char "." fnName = false ->
  handler_fnName (base +:+ "." +:+ fnName) = Some fnName /\
  handler_fileName (base +:+ "." +:+ fnName) fnName = base +:+ ".".
Proof.
  intros Hno. split.
  - unfold handler_fnName.
    change (base +:+ "." +:+ fnName) with (base +:+ String "." fnName).
    rewrite last_split_app, split_without_sep by exact Hno. reflexivity.
  - unfold handler_fileName. rewrite <- append_assoc.
    rewrite lastIndexOf_suffix. apply substring_to_stem.
Qed.

(** X4. A handler [<base>.<name>], where [name] is not empty and has no
    dot, resolves to [<base>.ts] when that exists under [cwd], else to
    [<base>.js] when that exists; when neither does, the line printed names
    [<base>] and the failure is [HandlerFileMissing]. Dots in [base], and
    [name] occurring in [base], make no difference. *)
Theorem dotted_handler_resolution (cwd base fnName : string) (w : World) :
  JsString.has_char "." fnName = false ->
  fnName <> EmptyString ->
  resolveHandler cwd (base +:+ "." +:+ fnName) w =
    if disk_exists (path_join cwd (base +:+ ".ts")) then
      (after w [fse_existsSync_call (path_join cwd (base +:+ ".ts"))], inr (base +:+ ".ts"))
    else if disk_exists (path_join cwd (base +:+ ".js")) then
      (after w [fse_existsSync_call (path_join cwd (base +:+ ".ts"));
                fse_existsSync_call (path_join cwd (base +:+ ".js"))],
       inr (base +:+ ".js"))
    else
      (after w [fse_existsSync_call (path_join cwd (base +:+ ".ts"));
                fse_existsSync_call (path_join cwd (base +:+ ".js"));
                console_log ("Cannot locate handler - " +:+ base +:+ " not found")],
       inl HandlerFileMissing).
Proof.
  intros Hno Hne. destruct (dotted_handler_parts base fnName Hno) as [Hname Hfile].
  rewrite (resolveHandler_named cwd _ fnName w Hname Hne). cbv zeta. rewrite Hfile.
  rewrite !append_assoc.
  change (-1) with (- Z.of_nat (String.length ".")).
  rewrite slice_drop_suffix by discriminate. reflexivity.
Qed.

(** X5. With a manifest whose [main] is missing or falsy ([null], [false],
    [0], the empty string), the entry point of the target ["google"] is
    ["index.ts"]: it is returned when it exists under [cwd], and its
    absence is a failure. *)
Theorem google_manifest_without_main (cwd : string)
    (functions : option (list (string * ServerlessTSFunction))) (w : World)
    (text : string) (packageFile : json) (main : option json) :
  let manifest := path_join cwd "package.json" in
  disk_exists manifest = true ->
  disk_read manifest = inr text ->
  JSON_parse text = inr packageFile ->
  get_property packageFile "main" = inr main ->
  json_truthy main = false ->
  extractFileNames cwd "google" functions w =
    if disk_exists (path_join cwd "index.ts") then
      (after w [fse_existsSync_call manifest; fse_readFileSync_call manifest;
                fse_existsSync_call (path_join cwd "index.ts")],
       inr ["index.ts"])
    else
      (after w [fse_existsSync_call manifest; fse_readFileSync_call manifest;
                fse_existsSync_call (path_join cwd "index.ts");
                console_log "Cannot locate entrypoint, index.ts not found"],
       inl ManifestEntrypointMissing).
Proof.
  intros manifest Hexists Hread Hparse Hmain Hfalsy. subst manifest.
  apply (extractFileNames_manifest cwd functions w text packageFile "index.ts");
    try assumption.
  unfold manifest_main. rewrite Hmain, Hfalsy. reflexivity.
Qed.

(** X6. A manifest whose [main] is [<stem>.js] asks for [<stem>.ts]: that
    is the path probed and returned, and when it is not there resolution
    fails, whether or not [<stem>.js] is. A [main] that does not end in
    [".js"] is probed and returned as it is. *)
Theorem google_main_js_is_rewritten (cwd : string)
    (functions : option (list (string * ServerlessTSFunction))) (w : World)
    (text : string) (packageFile : json) :
  let manifest := path_join cwd "package.json" in
  let outcome main :=
    if disk_exists (path_join cwd main) then
      (after w [fse_existsSync_call manifest; fse_readFileSync_call manifest;
                fse_existsSync_call (path_join cwd main)],
       inr [main])
    else
      (after w [fse_existsSync_call manifest; fse_readFileSync_call manifest;
                fse_existsSync_call (path_join cwd main);
                console_log ("Cannot locate entrypoint, " +:+ main +:+ " not found")],
       inl ManifestEntrypointMissing) in
  disk_exists manifest = true ->
  disk_read manifest = inr text ->
  JSON_parse text = inr packageFile ->
  (forall stem,
      get_property packageFile "main" = inr (Some (JString (stem +:+ ".js"))) ->
      extractFileNames cwd "google" functions w = outcome (stem +:+ ".ts")) /\
  (forall main,
      get_property packageFile "main" = inr (Some (JString main)) ->
      main <> EmptyString -> JsString.endsWith main ".js" = false ->
      extractFileNames cwd "google" functions w = outcome main).
Proof.
  intros manifest outcome Hexists Hread Hparse. subst manifest outcome. split.
  - intros stem Hmain.
    apply (extractFileNames_manifest cwd functions w text packageFile (stem +:+ ".ts"));
      try assumption.
    unfold manifest_main. rewrite Hmain. unfold json_truthy, JsString.truthy.
    destruct (String.eqb_spec (stem +:+ ".js") EmptyString) as [Hempty|_].
    + apply (f_equal String.length) in Hempty. rewrite length_app in Hempty.
      simpl in Hempty. lia.
    + cbn [negb]. rewrite replace_js_at_end_js. reflexivity.
  - intros main Hmain Hne Hends.
    apply (extractFileNames_manifest cwd functions w text packageFile main); try assumption.
    unfold manifest_main. rewrite Hmain. unfold json_truthy, JsString.truthy.
    destruct (String.eqb_spec main EmptyString); [contradiction|]. cbn [negb].
    unfold JsString.replace_js_at_end. rewrite Hends. reflexivity.
Qed.

(** X7. When the manifest exists but cannot be read, or its text is not
    JSON, the exception of the read or of the parse is what
    [extractFileNames] throws. The handler mapping is no fallback, and no
    entry point is probed. *)
Theorem manifest_errors_propagate (cwd : string)
    (functions : option (list (string * ServerlessTSFunction))) (w : World) :
  let manifest := path_join cwd "package.json" in
  disk_exists manifest = true ->
  (forall e, disk_read manifest = inl e ->
     extractFileNames cwd "google" functions w =
       (after w [fse_existsSync_call manifest; fse_readFileSync_call manifest], inl e)) /\
  (forall text e, disk_read manifest = inr text -> JSON_parse text = inl e ->
     extractFileNames cwd "google" functions w =
       (after w [fse_existsSync_call manifest; fse_readFileSync_call manifest], inl e)).
Proof.
  intros manifest Hexists. subst manifest.
  split; [intros e Hread | intros text e Hread Hparse];
    unfold extractFileNames; rewrite String.eqb_refl; cbv zeta;
    unfold bind at 1; rewrite fse_existsSync_run, Hexists;
    unfold bind at 1; unfold fse_readFileSync; unfold bind at 1;
    rewrite emit_event_run, Hread; cbn [of_result ret throw]; rewrite after_after.
  - reflexivity.
  - unfold bind. rewrite Hparse. reflexivity.
Qed.

(** X8. A manifest that holds [null], or whose [main] is truthy and not
    a string (a number, [true], an array, an object), makes
    [extractFileNames] throw a [TypeError]; no entry point is probed. *)
Theorem manifest_main_not_a_string (cwd : string)
    (functions : option (list (string * ServerlessTSFunction))) (w : World)
    (text : string) (packageFile : json) :
  let manifest := path_join cwd "package.json" in
  disk_exists manifest = true ->
  disk_read manifest = inr text ->
  JSON_parse text = inr packageFile ->
  packageFile = JNull \/
  (exists v, get_property packageFile "main" = inr (Some v) /\
             json_truthy (Some v) = true /\ forall s, v <> JString s) ->
  exists message,
    extractFileNames cwd "google" functions w =
      (after w [fse_existsSync_call manifest; fse_readFileSync_call manifest],
       inl (TypeError message)).
Proof.
  intros manifest Hexists Hread Hparse Hbad. subst manifest.
  assert (Hmain : exists message, manifest_main packageFile = inl (TypeError message)).
  { destruct Hbad as [->|(v & Hget & Htruthy & Hnot)].
    - eexists. reflexivity.
    - unfold manifest_main. rewrite Hget, Htruthy.
      destruct v; try (eexists; reflexivity). destruct (Hnot s eq_refl). }
  destruct Hmain as [message Hmain]. exists message.
  unfold extractFileNames. rewrite String.eqb_refl. cbv zeta.
  unfold bind at 1. rewrite fse_existsSync_run, Hexists.
  unfold bind at 1. unfold fse_readFileSync. unfold bind at 1.
  rewrite emit_event_run, Hread. cbn [of_result ret]. rewrite after_after.
  unfold bind at 1. rewrite Hparse. cbn [of_result ret].
  unfold bind. rewrite Hmain. reflexivity.
Qed.

(** X9. For the target ["google"], once a manifest exists the handler
    mapping plays no part: any two mappings give the same outcome, the
    same probes and the same printed lines, also when resolution fails. *)
Theorem google_manifest_ignores_handlers (cwd : string)
    (functions functions' : option (list (string * ServerlessTSFunction))) (w : World) :
  disk_exists (path_join cwd "package.json") = true ->
  extractFileNames cwd "google" functions w = extractFileNames cwd "google" functions' w.
Proof.
  intros Hexists.
  assert (Hstep : forall fns,
             extractFileNames cwd "google" fns w =
             extractFileNames cwd "google" None w).
  { intros fns. unfold extractFileNames. rewrite String.eqb_refl. cbv zeta.
    unfold bind at 1. rewrite fse_existsSync_run, Hexists.
    symmetry. unfold bind at 1. rewrite fse_existsSync_run, Hexists. reflexivity. }
  rewrite (Hstep functions), (Hstep functions'). reflexivity.
Qed.

Lemma resolveHandler_quiet cwd h w :
  exists es,
    fst (resolveHandler cwd h w) = after w es /\ Forall (fun e => is_logger_log e = false) es.
Proof.
  destruct (handler_split h) as (name & Hname & _).
  destruct (String.eqb_spec name EmptyString) as [->|Hne].
  - rewrite (resolveHandler_unnamed cwd h w Hname). exists []. rewrite after_nil.
    split; [reflexivity | constructor].
  - rewrite (resolveHandler_named cwd h name w Hname Hne). cbv zeta.
    repeat match goal with
           | |- context [if ?b then _ else _] => destruct b
           end;
      eexists; (split; [reflexivity | repeat constructor]).
Qed.

Lemma mapM_quiet {A B} (f : A -> M B) xs :
  (forall x w, exists es,
      fst (f x w) = after w es /\ Forall (fun e => is_logger_log e = false) es) ->
  forall w, exists es,
    fst (mapM f xs w) = after w es /\ Forall (fun e => is_logger_log e = false) es.
Proof.
  intros Hf. induction xs as [|x xs IH]; intros w.
  - exists []. rewrite after_nil. split; [reflexivity | constructor].
  - rewrite mapM_cons_run. destruct (Hf x w) as (es1 & Hw1 & Hes1).
    destruct (f x w) as [w1 [e|y]]; cbn [fst] in Hw1; subst w1.
    + exists es1. split; [reflexivity | assumption].
    + destruct (IH (after w es1)) as (es2 & Hw2 & Hes2).
      destruct (mapM f xs (after w es1)) as [w2 [e|ys]]; cbn [fst] in Hw2; subst w2;
        exists (es1 ++ es2); (split; [cbn [fst]; apply after_after | apply Forall_app; auto]).
Qed.

(** X10. [extractFileNames] only adds events to the world: no options
    object in the store is changed, whatever the outcome, and the logger is
    never called, since the function is not given one. *)
Theorem extractFileNames_keeps_the_store (cwd provider : string)
    (functions : option (list (string * ServerlessTSFunction))) (w : World) :
  exists es,
    fst (extractFileNames cwd provider functions w) = after w es /\
    Forall (fun e => is_logger_log e = false) es.
Proof.
  assert (Hgeneric : forall es0,
             Forall (fun e => is_logger_log e = false) es0 ->
             exists es, fst (resolveHandlers cwd functions (after w es0)) = after w es /\
                        Forall (fun e => is_logger_log e = false) es).
  { intros es0 Hes0. rewrite resolveHandlers_mapM.
    destruct (mapM_quiet (resolveHandler cwd) (handlers_of functions)
                (resolveHandler_quiet cwd) (after w es0)) as (es & Hw & Hes).
    exists (es0 ++ es). rewrite Hw, after_after. split; [reflexivity | apply Forall_app; auto]. }
  unfold extractFileNames. destruct (String.eqb provider "google").
  - cbv zeta. unfold bind at 1. rewrite fse_existsSync_run.
    destruct (disk_exists (path_join cwd "package.json")).
    + unfold bind at 1. unfold fse_readFileSync. unfold bind at 1.
      rewrite emit_event_run, after_after.
      destruct (disk_read (path_join cwd "package.json")) as [e|text]; cbn [of_result ret throw];
        [eexists; split; [reflexivity | repeat constructor]|].
      unfold bind at 1.
      destruct (JSON_parse text) as [e|packageFile]; cbn [of_result ret throw];
        [eexists; split; [reflexivity | repeat constructor]|].
      unfold bind at 1.
      destruct (manifest_main packageFile) as [e|main]; cbn [of_result ret throw];
        [eexists; split; [reflexivity | repeat constructor]|].
      unfold bind at 1. rewrite fse_existsSync_run, after_after.
      destruct (disk_exists (path_join cwd main)); cbn [negb].
      * eexists. split; [reflexivity | repeat constructor].
      * unfold bind. rewrite console_log_run, after_after.
        eexists. split; [reflexivity | repeat constructor].
    + apply Hgeneric. repeat constructor.
  - destruct (Hgeneric [] (List.Forall_nil _)) as (es & Hw & Hes).
    rewrite after_nil in Hw. exists es. auto.
Qed.

End ResolverCases.

(** ** The manifest of the target ["google"] *)

Section Manifest.
Context {host : Host}.

Lemma resolveHandler_dotted_found cwd fn outcome w :
  dotted_handler_outcome cwd fn outcome ->
  resolveHandler cwd (handler fn) w = (after w (snd outcome), inr (fst outcome)).
Proof.
  intros (base & fnName & -> & Hno & Hne & Hfound). cbv zeta in Hfound.
  destruct (dotted_handler_parts base fnName Hno) as [Hname Hfile].
  rewrite (resolveHandler_named cwd _ fnName w Hname Hne). cbv zeta. rewrite Hfile.
  rewrite !append_assoc.
  change ("." +:+ "ts") with ".ts". change ("." +:+ "js") with ".js".
  destruct Hfound as [[Hts ->]|(Hts & Hjs & ->)].
  - rewrite Hts. reflexivity.
  - rewrite Hts, Hjs. reflexivity.
Qed.

Lemma resolveHandlers_dotted_found cwd fns outcomes w :
  Forall2 (fun fn outcome => dotted_handler_outcome cwd (snd fn) outcome) fns outcomes ->
  resolveHandlers cwd (Some fns) w =
    (after w (concat (snd <$> outcomes)), inr (fst <$> outcomes)).
Proof.
  intros Hall. revert w. induction Hall as [|fn outcome fns outcomes Hfn _ IH]; intros w.
  - rewrite resolveHandlers_mapM. cbn. unfold ret. rewrite after_nil. reflexivity.
  - rewrite resolveHandlers_mapM.
    change (handlers_of (Some (fn :: fns))) with (handler (snd fn) :: handlers_of (Some fns)).
    rewrite mapM_cons_run, (resolveHandler_dotted_found cwd (snd fn) outcome w Hfn).
    rewrite <- resolveHandlers_mapM, IH, after_after. reflexivity.
Qed.

(** C5. For the target ["google"] and a manifest at [<cwd>/package.json]
    whose [main] is ["dist/app.js"], with [dist/app.ts] on the disk under
    [cwd], the resolver returns exactly [["dist/app.ts"]], whatever the
    handler mapping. When the manifest names a [main] whose rewritten
    file is not under [cwd], resolution fails. When there is no manifest,
    resolution is the generic one over the handler mapping: after the
    probe for the manifest, each handler [<base>.<name>] of the mapping
    is probed in turn, and the result is the list of their files, in the
    order of the mapping. *)
Theorem google_manifest_entry_point (cwd : string)
    (functions : option (list (string * ServerlessTSFunction))) (w : World) :
  let manifest := path_join cwd "package.json" in
  (forall text packageFile,
      disk_exists manifest = true ->
      disk_read manifest = inr text ->
      JSON_parse text = inr packageFile ->
      get_property packageFile "main" = inr (Some (JString "dist/app.js")) ->
      disk_exists (path_join cwd "dist/app.ts") = true ->
      extractFileNames cwd "google" functions w =
        (after w [fse_existsSync_call manifest; fse_readFileSync_call manifest;
                  fse_existsSync_call (path_join cwd "dist/app.ts")],
         inr ["dist/app.ts"])) /\
  (forall text packageFile main,
      disk_exists manifest = true ->
      disk_read manifest = inr text ->
      JSON_parse text = inr packageFile ->
      get_property packageFile "main" = inr (Some (JString main)) ->
      main <> EmptyString ->
      disk_exists (path_join cwd (JsString.replace_js_at_end main)) = false ->
      extractFileNames cwd "google" functions w =
        (after w [fse_existsSync_call manifest; fse_readFileSync_call manifest;
                  fse_existsSync_call (path_join cwd (JsString.replace_js_at_end main));
                  console_log ("Cannot locate entrypoint, "
                               +:+ JsString.replace_js_at_end main +:+ " not found")],
         inl ManifestEntrypointMissing)) /\
  (disk_exists manifest = false ->
     extractFileNames cwd "google" functions w =
       resolveHandlers cwd functions (after w [fse_existsSync_call manifest])) /\
  (disk_exists manifest = false ->
     (functions = None \/ functions = Some [] ->
        extractFileNames cwd "google" functions w =
          (after w [fse_existsSync_call manifest], inr [])) /\
     (forall fns outcomes,
        functions = Some fns ->
        Forall2 (fun fn outcome => dotted_handler_outcome cwd (snd fn) outcome) fns outcomes ->
        extractFileNames cwd "google" functions w =
          (after w (fse_existsSync_call manifest :: concat (snd <$> outcomes)),
           inr (fst <$> outcomes))) /\
     (forall key fn rest e,
        functions = Some ((key, fn) :: rest) ->
        snd (resolveHandler cwd (handler fn) (after w [fse_existsSync_call manifest])) = inl e ->
        snd (extractFileNames cwd "google" functions w) = inl e)).
Proof.
  intros manifest. subst manifest. split; [|split; [|split]].
  - intros text packageFile Hexists Hread Hparse Hmain Hentry.
    rewrite (extractFileNames_manifest cwd functions w text packageFile "dist/app.ts");
      try assumption.
    + cbv zeta. rewrite Hentry. reflexivity.
    + unfold manifest_main. rewrite Hmain. reflexivity.
  - intros text packageFile main Hexists Hread Hparse Hmain Hne Hentry.
    rewrite (extractFileNames_manifest cwd functions w text packageFile
               (JsString.replace_js_at_end main)); try assumption.
    + cbv zeta. rewrite Hentry. reflexivity.
    + unfold manifest_main. rewrite Hmain. unfold json_truthy, JsString.truthy.
      destruct (String.eqb_spec main EmptyString); [contradiction | reflexivity].
  - apply extractFileNames_no_manifest.
  - intros Hmissing. rewrite (extractFileNames_no_manifest cwd functions w Hmissing).
    split; [|split].
    + intros [->| ->]; reflexivity.
    + intros fns outcomes -> Hall.
      rewrite (resolveHandlers_dotted_found cwd fns outcomes _ Hall), after_after.
      reflexivity.
    + intros key fn rest e -> Hfails.
      destruct (resolveHandler cwd (handler fn) (after w [fse_existsSync_call _]))
        as [w1 result] eqn:Hhead.
      cbn [snd] in Hfails. subst result.
      rewrite (resolveHandlers_head_fails cwd key fn rest _ w1 e Hhead). reflexivity.
Qed.

End Manifest.

Section ManifestExamples.

Lemma google_manifest_entry_point_witness :
  extractFileNames (host := Fixture.google_project) "/proj" "google" (Some Fixture.hello)
      Fixture.empty_world =
    (after Fixture.empty_world
       [fse_existsSync_call "/proj/package.json"; fse_readFileSync_call "/proj/package.json";
        fse_existsSync_call "/proj/dist/app.ts"],
     inr ["dist/app.ts"]) /\
  extractFileNames (host := Fixture.broken_google_project) "/proj" "google" (Some Fixture.hello)
      Fixture.empty_world =
    (after Fixture.empty_world
       [fse_existsSync_call "/proj/package.json"; fse_readFileSync_call "/proj/package.json";
        fse_existsSync_call "/proj/dist/app.ts";
        console_log "Cannot locate entrypoint, dist/app.ts not found"],
     inl ManifestEntrypointMissing) /\
  extractFileNames (host := Fixture.mixed_project) "/proj" "google"
      (Some Fixture.mixed_handlers) Fixture.empty_world =
    (after Fixture.empty_world
       [fse_existsSync_call "/proj/package.json"; fse_existsSync_call "/proj/src/a.b.ts";
        fse_existsSync_call "/proj/src/b.ts"; fse_existsSync_call "/proj/src/b.js"],
     inr ["src/a.b.ts"; "src/b.js"]) /\
  snd (extractFileNames (host := Fixture.plain_project) "/proj" "google"
         (Some Fixture.hello) Fixture.empty_world) = inl HandlerFileMissing.
Proof.
  split; [|split; [|split]].
  - apply (proj1 (google_manifest_entry_point (host := Fixture.google_project)
                    "/proj" (Some Fixture.hello) Fixture.empty_world)
             Fixture.manifest_text Fixture.manifest_json); reflexivity.
  - apply (proj1 (proj2 (google_manifest_entry_point (host := Fixture.broken_google_project)
                           "/proj" (Some Fixture.hello) Fixture.empty_world))
             Fixture.manifest_text Fixture.manifest_json "dist/app.js");
      try reflexivity. discriminate.
  - apply (proj1 (proj2 (proj2 (proj2 (proj2
             (google_manifest_entry_point (host := Fixture.mixed_project)
                "/proj" (Some Fixture.mixed_handlers) Fixture.empty_world)))
             eq_refl))
             Fixture.mixed_handlers
             [("src/a.b.ts", [fse_existsSync_call "/proj/src/a.b.ts"]);
              ("src/b.js", [fse_existsSync_call "/proj/src/b.ts";
                            fse_existsSync_call "/proj/src/b.js"])]
             eq_refl).
    constructor; [|constructor; [|constructor]].
    + exists "src/a.b", "handler". split; [reflexivity|]. split; [reflexivity|].
      split; [discriminate|]. left. split; reflexivity.
    + exists "src/b", "run". split; [reflexivity|]. split; [reflexivity|].
      split; [discriminate|]. right. repeat split; reflexivity.
  - apply (proj2 (proj2 (proj2 (proj2 (proj2
             (google_manifest_entry_point (host := Fixture.plain_project)
                "/proj" (Some Fixture.hello) Fixture.empty_world)))
             eq_refl))
             "hello" {| handler := "handler" |} [] HandlerFileMissing eq_refl).
    reflexivity.
Defined.

End ManifestExamples.

Section ResolverExamples.

Lemma entry_points_exist_witness :
  Forall (fun p => disk_exists (Host := Fixture.plain_project)
                     (path_join (Host := Fixture.plain_project) "/proj" p) = true)
    ["src/a.b.ts"].
Proof.
  apply (entry_points_exist (host := Fixture.plain_project) "/proj" "aws"
           (Some [("first", {| handler := "src/a.b.handler" |})]) Fixture.empty_world
           (after Fixture.empty_world [fse_existsSync_call "/proj/src/a.b.ts"])).
  vm_compute. reflexivity.
Defined.

Lemma generic_resolution_in_handler_order_witness :
  length ["src/a.b.ts"; "src/b.js"] =
    length (handlers_of (Some [("first", {| handler := "src/a.b.handler" |});
                               ("second", {| handler := "src/b.run" |})])).
Proof.
  apply (generic_resolution_in_handler_order
           (host := Fixture.host "/home/user"
                      [("/proj/src/a.b.ts", Fixture.File "export const handler = 1;");
                       ("/proj/src/b.js", Fixture.File "exports.run = 1;")] [])
           "/proj"
           (Some [("first", {| handler := "src/a.b.handler" |});
                  ("second", {| handler := "src/b.run" |})])
           Fixture.empty_world
           (after Fixture.empty_world
              [fse_existsSync_call "/proj/src/a.b.ts"; fse_existsSync_call "/proj/src/b.ts";
               fse_existsSync_call "/proj/src/b.js"])).
  vm_compute. reflexivity.
Defined.

Lemma handlers_after_failure_ignored_witness :
  resolveHandlers (host := Fixture.plain_project) "/proj"
      (Some (Fixture.two_handlers ++ [("third", {| handler := "src/a.b.handler" |})]))
      Fixture.empty_world =
    (after Fixture.empty_world
       [fse_existsSync_call "/proj/src/a.b.ts"; fse_existsSync_call "/proj/src/gone.ts";
        fse_existsSync_call "/proj/src/gone.js";
        console_log "Cannot locate handler - src/gone not found"],
     inl HandlerFileMissing).
Proof.
  apply (handlers_after_failure_ignored (host := Fixture.plain_project) "/proj"
           [("first", {| handler := "src/a.b.handler" |})]
           [("third", {| handler := "src/a.b.handler" |})]
           ("second", {| handler := "src/gone.run" |})).
  vm_compute. reflexivity.
Defined.

Lemma dotted_handler_resolution_witness :
  resolveHandler (host := Fixture.js_project) "/proj" "src/b.run" Fixture.empty_world =
    (after Fixture.empty_world
       [fse_existsSync_call "/proj/src/b.ts"; fse_existsSync_call "/proj/src/b.js"],
     inr "src/b.js").
Proof.
  etransitivity.
  - apply (dotted_handler_resolution (host := Fixture.js_project) "/proj" "src/b" "run"
             Fixture.empty_world); [reflexivity | discriminate].
  - reflexivity.
Defined.

Lemma google_manifest_without_main_witness :
  extractFileNames (host := Fixture.index_project) "/proj" "google"
      (Some [("first", {| handler := "src/a.b.handler" |})]) Fixture.empty_world =
    (after Fixture.empty_world
       [fse_existsSync_call "/proj/package.json"; fse_readFileSync_call "/proj/package.json";
        fse_existsSync_call "/proj/index.ts"],
     inr ["index.ts"]).
Proof.
  rewrite (google_manifest_without_main (host := Fixture.index_project) "/proj"
             (Some [("first", {| handler := "src/a.b.handler" |})]) Fixture.empty_world
             "{ }" (JObject []) None eq_refl eq_refl eq_refl eq_refl eq_refl).
  reflexivity.
Defined.

Lemma google_main_js_is_rewritten_witness :
  disk_exists (Host := Fixture.js_main_project) "/proj/dist/app.js" = true /\
  extractFileNames (host := Fixture.js_main_project) "/proj" "google" None
      Fixture.empty_world =
    (after Fixture.empty_world
       [fse_existsSync_call "/proj/package.json"; fse_readFileSync_call "/proj/package.json";
        fse_existsSync_call "/proj/dist/app.ts";
        console_log "Cannot locate entrypoint, dist/app.ts not found"],
     inl ManifestEntrypointMissing).
Proof.
  split; [reflexivity|].
  rewrite (proj1 (google_main_js_is_rewritten (host := Fixture.js_main_project) "/proj" None
                    Fixture.empty_world Fixture.manifest_text Fixture.manifest_json
                    eq_refl eq_refl eq_refl) "dist/app" eq_refl).
  reflexivity.
Defined.

Lemma manifest_errors_propagate_witness :
  extractFileNames (host := Fixture.unreadable_manifest_project) "/proj" "google"
      (Some [("first", {| handler := "src/a.b.handler" |})]) Fixture.empty_world =
    (after Fixture.empty_world
       [fse_existsSync_call "/proj/package.json"; fse_readFileSync_call "/proj/package.json"],
     inl (SystemError "EISDIR")).
Proof.
  apply (manifest_errors_propagate (host := Fixture.unreadable_manifest_project) "/proj"
           (Some [("first", {| handler := "src/a.b.handler" |})]) Fixture.empty_world
           eq_refl).
  reflexivity.
Defined.

Lemma manifest_main_not_a_string_witness :
  exists message,
    extractFileNames (host := Fixture.null_manifest_project) "/proj" "google" None
        Fixture.empty_world =
      (after Fixture.empty_world
         [fse_existsSync_call "/proj/package.json"; fse_readFileSync_call "/proj/package.json"],
       inl (TypeError message)).
Proof.
  apply (manifest_main_not_a_string (host := Fixture.null_manifest_project) "/proj" None
           Fixture.empty_world "null" JNull eq_refl eq_refl eq_refl).
  left. reflexivity.
Defined.

Lemma google_manifest_ignores_handlers_witness :
  extractFileNames (host := Fixture.google_project) "/proj" "google" (Some Fixture.hello)
      Fixture.empty_world =
  extractFileNames (host := Fixture.google_project) "/proj" "google"
      (Some Fixture.two_handlers) Fixture.empty_world.
Proof.
  apply (google_manifest_ignores_handlers (host := Fixture.google_project)). reflexivity.
Defined.

End ResolverExamples.

(** ** More on the compilation runner *)

Section RunnerMore.
Context {compiler : TypeScript}.

(** X11. Running [run] again on the same object changes the object no
    further and gives the same result; the same lines are printed once
    more. *)
Theorem run_again_changes_nothing (fileNames : list string) (options : ref)
    (o : ts.CompilerOptions) (w : World) :
  heap w !! options = Some o ->
  let first := run fileNames options w in
  let second := run fileNames options (fst first) in
  snd second = snd first /\
  heap (fst second) = heap (fst first) /\
  exists lines, trace (fst first) = trace w ++ lines /\
                trace (fst second) = trace w ++ lines ++ lines.
Proof.
  intros Hlive first second. subst first second.
  assert (Hbound : (options < length (heap w))%nat) by (eapply lookup_lt_Some; eassumption).
  rewrite (run_run fileNames options o w Hlive). cbv zeta.
  set (o' := <["listEmittedFiles" := ts.VBool true]> o).
  set (lines := printed_lines _).
  set (w1 := {| heap := <[options := o']> (heap w); trace := trace w ++ lines |}).
  assert (Hlive1 : heap w1 !! options = Some o')
    by (apply list_lookup_insert_eq; assumption).
  assert (Hfirst : fst (if ts.emitSkipped (emit (createProgram fileNames o'))
                        then (w1, inl CompilationFailedError)
                        else (w1, inr (List.filter (fun filename => JsString.endsWith filename ".js")
                                         <$> ts.emittedFiles (emit (createProgram fileNames o')))))
                   = w1) by (destruct (ts.emitSkipped _); reflexivity).
  rewrite Hfirst. rewrite (run_run fileNames options o' w1 Hlive1). cbv zeta.
  assert (Ho' : <["listEmittedFiles" := ts.VBool true]> o' = o') by apply insert_insert_eq.
  rewrite Ho'. fold lines. subst w1. cbn [heap trace]. rewrite list_insert_insert_eq.
  destruct (ts.emitSkipped _); cbn [fst snd heap trace];
    (split; [reflexivity|]); (split; [reflexivity|]);
    exists lines; rewrite <- app_assoc; split; reflexivity.
Qed.

(** X12. When the emit is not skipped, [run] returns [undefined] if the
    engine lists no emitted files at all, and the empty list, not
    [undefined], if it lists files of which none ends in [".js"]. *)
Theorem run_without_js_outputs (fileNames : list string) (options : ref)
    (o : ts.CompilerOptions) (w : World) :
  heap w !! options = Some o ->
  let program := createProgram fileNames (<["listEmittedFiles" := ts.VBool true]> o) in
  ts.emitSkipped (emit program) = false ->
  (ts.emittedFiles (emit program) = None -> snd (run fileNames options w) = inr None) /\
  (forall files,
      ts.emittedFiles (emit program) = Some files ->
      Forall (fun f => JsString.endsWith f ".js" = false) files ->
      snd (run fileNames options w) = inr (Some [])).
Proof.
  intros Hlive program Hflag. subst program.
  rewrite (run_run fileNames options o w Hlive). cbv zeta. rewrite Hflag. split.
  - intros ->. reflexivity.
  - intros files -> Hnone. cbn [snd fmap option_fmap option_map]. do 2 f_equal.
    induction Hnone as [|f files Hf _ IH]; [reflexivity|]. simpl. rewrite Hf. exact IH.
Qed.

(** X13. [getSourceFiles] changes nothing and prints nothing: it returns
    the file names of the program built from the options as they are. It
    does not set [listEmittedFiles], but called after [run] on the same
    object it builds its program from options in which [run] has set it. *)
Theorem getSourceFiles_reads_only (rootFileNames : list string) (options : ref)
    (o : ts.CompilerOptions) (w : World) :
  heap w !! options = Some o ->
  getSourceFiles rootFileNames options w =
    (w, inr (ts.fileName <$> program_getSourceFiles (createProgram rootFileNames o))) /\
  forall fileNames,
    snd (getSourceFiles rootFileNames options (fst (run fileNames options w))) =
      inr (ts.fileName <$> program_getSourceFiles
             (createProgram rootFileNames (<["listEmittedFiles" := ts.VBool true]> o))).
Proof.
  intros Hlive. split.
  - unfold getSourceFiles, bind, read_object. rewrite Hlive. reflexivity.
  - intros fileNames. rewrite (run_run fileNames options o w Hlive). cbv zeta.
    assert (Hbound : (options < length (heap w))%nat) by (eapply lookup_lt_Some; eassumption).
    unfold getSourceFiles, bind, read_object.
    destruct (ts.emitSkipped _); cbn [fst heap];
      rewrite list_lookup_insert_eq by assumption; reflexivity.
Qed.

Lemma diagnostic_line_located d :
  if located d then
    exists file start,
      ts.file d = Some file /\ ts.start d = Some start /\ start <> 0 /\
      diagnostic_line d =
        Some (ts.fileName file +:+ " ("
              +:+ JsString.of_number
                    (ts.line (ts.getLineAndCharacterOfPosition file start) + 1)
              +:+ ","
              +:+ JsString.of_number
                    (ts.character (ts.getLineAndCharacterOfPosition file start) + 1)
              +:+ "): "
              +:+ flattenDiagnosticMessageText (ts.messageText d) JsString.newline)
  else diagnostic_line d = None.
Proof.
  unfold located, diagnostic_line.
  destruct (ts.file d) as [file|]; [|reflexivity].
  destruct (ts.start d) as [start|]; [|reflexivity].
  destruct (Z.eqb_spec start 0) as [->|Hne]; cbn [negb]; [reflexivity|].
  exists file, start. auto.
Qed.

Lemma printed_lines_located ds :
  Forall2 (fun d e =>
             exists file start,
               ts.file d = Some file /\ ts.start d = Some start /\ start <> 0 /\
               e = console_log
                     (ts.fileName file +:+ " ("
                      +:+ JsString.of_number
                            (ts.line (ts.getLineAndCharacterOfPosition file start) + 1)
                      +:+ ","
                      +:+ JsString.of_number
                            (ts.character (ts.getLineAndCharacterOfPosition file start) + 1)
                      +:+ "): "
                      +:+ flattenDiagnosticMessageText (ts.messageText d) JsString.newline))
          (List.filter located ds) (printed_lines ds).
Proof.
  induction ds as [|d ds IH]; [constructor|].
  rewrite printed_lines_cons. unfold printed_lines at 1. cbn [omap list_omap List.filter].
  pose proof (diagnostic_line_located d) as Hd.
  destruct (located d).
  - destruct Hd as (file & start & Hfile & Hstart & Hne & ->). cbn [fmap list_fmap app].
    constructor; [|exact IH]. exists file, start. auto.
  - rewrite Hd. exact IH.
Qed.

(** X14. What [run] prints, whether it then returns or throws: one line
    for each diagnostic that has a file and a start offset other than
    [0], in the engine's order, pre-emit diagnostics first. The line is
    the file name, the 1-based line and column of the offset in
    parentheses, a colon and the flattened message. The other diagnostics
    print nothing. *)
Theorem run_prints_located_diagnostics (fileNames : list string) (options : ref)
    (o : ts.CompilerOptions) (w : World) :
  heap w !! options = Some o ->
  let program := createProgram fileNames (<["listEmittedFiles" := ts.VBool true]> o) in
  exists printed,
    trace (fst (run fileNames options w)) = trace w ++ printed /\
    Forall2 (fun d e =>
               exists file start,
                 ts.file d = Some file /\ ts.start d = Some start /\ start <> 0 /\
                 e = console_log
                       (ts.fileName file +:+ " ("
                        +:+ JsString.of_number
                              (ts.line (ts.getLineAndCharacterOfPosition file start) + 1)
                        +:+ ","
                        +:+ JsString.of_number
                              (ts.character (ts.getLineAndCharacterOfPosition file start) + 1)
                        +:+ "): "
                        +:+ flattenDiagnosticMessageText (ts.messageText d) JsString.newline))
            (List.filter located (getPreEmitDiagnostics program)
             ++ List.filter located (ts.diagnostics (emit program)))
            printed.
Proof.
  intros Hlive program. subst program.
  rewrite (run_run fileNames options o w Hlive). cbv zeta.
  eexists. split.
  - destruct (ts.emitSkipped _); reflexivity.
  - rewrite <- List.filter_app. apply printed_lines_located.
Qed.

End RunnerMore.

Section RunnerMoreExamples.

Lemma run_again_changes_nothing_witness :
  snd (run (compiler := Fixture.compiling Fixture.clean_program) ["src/app.ts"] 0
         (fst (run (compiler := Fixture.compiling Fixture.clean_program) ["src/app.ts"] 0
                 (Fixture.world_with defaultTypescriptConfig)))) =
  snd (run (compiler := Fixture.compiling Fixture.clean_program) ["src/app.ts"] 0
         (Fixture.world_with defaultTypescriptConfig)).
Proof.
  apply (run_again_changes_nothing (compiler := Fixture.compiling Fixture.clean_program)
           ["src/app.ts"] 0 defaultTypescriptConfig
           (Fixture.world_with defaultTypescriptConfig) eq_refl).
Defined.

Lemma run_without_js_outputs_witness :
  snd (run (compiler := Fixture.compiling Fixture.silent_program) ["src/app.ts"] 0
         (Fixture.world_with defaultTypescriptConfig)) = inr None /\
  snd (run (compiler := Fixture.compiling Fixture.noisy_program) ["src/app.ts"] 0
         (Fixture.world_with defaultTypescriptConfig)) = inr (Some []).
Proof.
  split.
  - apply (run_without_js_outputs (compiler := Fixture.compiling Fixture.silent_program)
             ["src/app.ts"] 0 defaultTypescriptConfig
             (Fixture.world_with defaultTypescriptConfig) eq_refl eq_refl).
    reflexivity.
  - apply (proj2 (run_without_js_outputs (compiler := Fixture.compiling Fixture.noisy_program)
                    ["src/app.ts"] 0 defaultTypescriptConfig
                    (Fixture.world_with defaultTypescriptConfig) eq_refl eq_refl)
             ["dist/app.d.ts"] eq_refl).
    repeat constructor.
Defined.

Lemma getSourceFiles_reads_only_witness :
  getSourceFiles (compiler := Fixture.compiling Fixture.silent_program) ["src/app.ts"] 0
      (Fixture.world_with defaultTypescriptConfig) =
    (Fixture.world_with defaultTypescriptConfig, inr ["src/app.ts"; "src/lib.ts"]).
Proof.
  apply (getSourceFiles_reads_only (compiler := Fixture.compiling Fixture.silent_program)
           ["src/app.ts"] 0 defaultTypescriptConfig
           (Fixture.world_with defaultTypescriptConfig) eq_refl).
Defined.

Lemma run_prints_located_diagnostics_witness :
  exists printed,
    trace (fst (run (compiler := Fixture.compiling Fixture.noisy_program) ["src/app.ts"] 0
                  (Fixture.world_with defaultTypescriptConfig))) = [] ++ printed /\
    length printed = 2%nat.
Proof.
  destruct (run_prints_located_diagnostics
              (compiler := Fixture.compiling Fixture.noisy_program)
              ["src/app.ts"] 0 defaultTypescriptConfig
              (Fixture.world_with defaultTypescriptConfig) eq_refl)
    as (printed & Htrace & Hlines).
  exists printed. split; [exact Htrace|].
  apply Forall2_length in Hlines. rewrite <- Hlines. reflexivity.
Defined.

End RunnerMoreExamples.

(** ** More on the config resolver *)

Section ConfigMore.
Context {host : Host} {compiler : TypeScript}.

Lemma read_object_new (hp : list ts.CompilerOptions) o tr :
  read_object (length hp) {| heap := hp ++ [o]; trace := tr |} =
    ({| heap := hp ++ [o]; trace := tr |}, inr o).
Proof.
  unfold read_object. cbn [heap]. rewrite lookup_app_r by lia.
  rewrite Nat.sub_diag. reflexivity.
Qed.

Lemma set_property_new (hp : list ts.CompilerOptions) o tr key v :
  set_property (length hp) key v {| heap := hp ++ [o]; trace := tr |} =
    ({| heap := hp ++ [<[key := v]> o]; trace := tr |}, inr tt).
Proof.
  unfold set_property. cbn [heap trace]. rewrite lookup_app_r by lia.
  rewrite Nat.sub_diag. cbn [lookup list_lookup].
  rewrite insert_app_r_alt by lia. rewrite Nat.sub_diag. reflexivity.
Qed.

Lemma getTypescriptConfig_missing cwd tsconfigFilePath logger w :
  disk_exists (path_join cwd (default "tsconfig.json" tsconfigFilePath)) = false ->
  getTypescriptConfig cwd tsconfigFilePath logger w =
    ({| heap := heap w ++ [defaultTypescriptConfig];
        trace := trace w ++ [fse_existsSync_call
                               (path_join cwd (default "tsconfig.json" tsconfigFilePath))] |},
     inr (length (heap w))).
Proof.
  intros Hmissing. unfold getTypescriptConfig. cbv zeta.
  unfold bind. rewrite fse_existsSync_run, Hmissing. reflexivity.
Qed.

(** X15. A config file that exists but cannot be read, or whose text
    does not parse, makes [getTypescriptConfig] throw. For a failed read
    it is the exception of the read. For a parse error it is what
    [JSON.stringify] throws on the parser's diagnostic, when it throws (a
    [TypeError], for a diagnostic that refers to its source file), and
    otherwise an [Error] whose message is the JSON text of the
    diagnostic. In each case the defaults are no fallback, the logger is
    not called even when there is one, and the store is as before. *)
Theorem config_read_and_parse_errors (cwd : string) (tsconfigFilePath : option string)
    (logger : option Logger) (w : World) :
  let configFilePath := path_join cwd (default "tsconfig.json" tsconfigFilePath) in
  disk_exists configFilePath = true ->
  (forall e, disk_read configFilePath = inl e ->
     getTypescriptConfig cwd tsconfigFilePath logger w =
       (after w [fse_existsSync_call configFilePath; fse_readFileSync_call configFilePath],
        inl e)) /\
  (forall text d,
     disk_read configFilePath = inr text ->
     ts.error (parseConfigFileTextToJson configFilePath text) = Some d ->
     getTypescriptConfig cwd tsconfigFilePath logger w =
       (after w [fse_existsSync_call configFilePath; fse_readFileSync_call configFilePath],
        match JSON_stringify d with
        | inl thrown => inl thrown
        | inr written => inl (ConfigParseError written)
        end)).
Proof.
  intros configFilePath Hexists.
  split; [intros e Hread | intros text d Hread Hparse];
    unfold getTypescriptConfig; cbv zeta; fold configFilePath;
    unfold bind at 1; rewrite fse_existsSync_run, Hexists;
    unfold bind at 1; unfold fse_readFileSync; unfold bind at 1;
    rewrite emit_event_run, Hread; cbn [of_result ret throw]; rewrite after_after.
  - reflexivity.
  - rewrite Hparse. unfold bind. destruct (JSON_stringify d); reflexivity.
Qed.

(** X16. A config file that parses but does not validate makes
    [getTypescriptConfig] throw. [JSON.stringify] is given all the
    validation errors, not the first only: what is thrown is what it
    throws on them, when it throws (a [TypeError], when an error refers
    to its source file), and otherwise an [Error] whose message is the
    JSON text of the whole list. Nothing is logged, and no object that
    was in the store is changed. *)
Theorem config_validation_errors (cwd : string) (tsconfigFilePath : option string)
    (logger : option Logger) (w : World) (text : string) :
  let configFilePath := path_join cwd (default "tsconfig.json" tsconfigFilePath) in
  let result := parseConfigFileTextToJson configFilePath text in
  let configParseResult :=
    parseJsonConfigFileContent (ts.config result) (path_dirname configFilePath) in
  disk_exists configFilePath = true ->
  disk_read configFilePath = inr text ->
  ts.error result = None ->
  ts.errors configParseResult <> [] ->
  let w' := fst (getTypescriptConfig cwd tsconfigFilePath logger w) in
  snd (getTypescriptConfig cwd tsconfigFilePath logger w) =
    match JSON_stringify_all (ts.errors configParseResult) with
    | inl thrown => inl thrown
    | inr written => inl (ConfigValidationError written)
    end /\
  trace w' = trace w ++ [fse_existsSync_call configFilePath;
                         fse_readFileSync_call configFilePath] /\
  (forall r o, heap w !! r = Some o -> heap w' !! r = Some o).
Proof.
  intros configFilePath result configParseResult Hexists Hread Hparse Hinvalid w'.
  assert (Hrun : getTypescriptConfig cwd tsconfigFilePath logger w =
                 ({| heap := heap w ++ [ts.options configParseResult];
                     trace := trace w ++ [fse_existsSync_call configFilePath;
                                          fse_readFileSync_call configFilePath] |},
                  match JSON_stringify_all (ts.errors configParseResult) with
                  | inl thrown => inl thrown
                  | inr written => inl (ConfigValidationError written)
                  end)).
  { unfold getTypescriptConfig. cbv zeta. fold configFilePath.
    unfold bind at 1. rewrite fse_existsSync_run, Hexists.
    unfold bind at 1. unfold fse_readFileSync. unfold bind at 1.
    rewrite emit_event_run, Hread. cbn [of_result ret]. rewrite after_after.
    fold result. rewrite Hparse. fold configParseResult.
    unfold bind. rewrite new_object_run.
    destruct (ts.errors configParseResult) as [|d ds] eqn:Herrors; [contradiction|].
    cbn [length Nat.ltb Nat.leb].
    destruct (JSON_stringify_all (d :: ds)); reflexivity. }
  subst w'. rewrite Hrun. cbn [fst snd heap trace].
  split; [reflexivity|]. split; [reflexivity|].
  intros r o Hlive. apply lookup_app_l_Some. exact Hlive.
Qed.

(** X17. The object [getTypescriptConfig] returns for a valid config
    file, after [run] has been given it: its [rootDir] is [cwd], its
    [listEmittedFiles] is [true], and every other option is the file's. *)
Theorem config_then_run (cwd : string) (tsconfigFilePath : option string)
    (logger : option Logger) (w : World) (text : string) (fileNames : list string) :
  let configFilePath := path_join cwd (default "tsconfig.json" tsconfigFilePath) in
  let result := parseConfigFileTextToJson configFilePath text in
  let configParseResult :=
    parseJsonConfigFileContent (ts.config result) (path_dirname configFilePath) in
  let fileOptions := ts.options configParseResult in
  disk_exists configFilePath = true ->
  disk_read configFilePath = inr text ->
  ts.error result = None ->
  ts.errors configParseResult = [] ->
  (forall v, fileOptions !! "rootDir" = Some v -> exists dir, v = ts.VString dir) ->
  exists options,
    snd (getTypescriptConfig cwd tsconfigFilePath logger w) = inr options /\
    let w' := fst (run fileNames options
                     (fst (getTypescriptConfig cwd tsconfigFilePath logger w))) in
    property_of w' options "rootDir" = Some (ts.VString cwd) /\
    property_of w' options "listEmittedFiles" = Some (ts.VBool true) /\
    (forall key, key <> "rootDir" -> key <> "listEmittedFiles" ->
       property_of w' options key = fileOptions !! key).
Proof.
  intros configFilePath result configParseResult fileOptions
         Hexists Hread Hparse Hvalid Htyped.
  destruct (rootDir_differs_typed fileOptions cwd Htyped) as (b & Hb & _).
  rewrite (getTypescriptConfig_present cwd tsconfigFilePath logger w text b
             Hexists Hread Hparse Hvalid Hb).
  fold configFilePath result configParseResult fileOptions.
  exists (length (heap w)). cbn [fst snd]. split; [reflexivity|].
  set (o1 := <["rootDir" := ts.VString cwd]> fileOptions).
  set (w1 := {| heap := heap w ++ [o1]; trace := _ |}).
  assert (Hlive : heap w1 !! length (heap w) = Some o1).
  { subst w1. cbn [heap]. rewrite lookup_app_r by lia. rewrite Nat.sub_diag. reflexivity. }
  rewrite (run_run fileNames (length (heap w)) o1 w1 Hlive). cbv zeta.
  assert (Hbound : (length (heap w) < length (heap w1))%nat)
    by (eapply lookup_lt_Some; eassumption).
  destruct (ts.emitSkipped _); unfold property_of; cbn [fst heap];
    rewrite list_lookup_insert_eq by assumption; subst o1;
    (split; [rewrite lookup_insert_ne by discriminate; apply lookup_insert_eq|]);
    (split; [apply lookup_insert_eq|]);
    intros key Hroot Hlist; rewrite !lookup_insert_ne by congruence; reflexivity.
Qed.

(** X18. Two calls that find no config file return two different
    objects, each with the default options. What [run] then does to the
    first is not seen in the second. *)
Theorem default_configs_are_separate (cwd : string) (tsconfigFilePath : option string)
    (logger : option Logger) (w : World) (fileNames : list string) :
  disk_exists (path_join cwd (default "tsconfig.json" tsconfigFilePath)) = false ->
  let first := getTypescriptConfig cwd tsconfigFilePath logger w in
  let second := getTypescriptConfig cwd tsconfigFilePath logger (fst first) in
  exists options1 options2,
    snd first = inr options1 /\ snd second = inr options2 /\ options1 <> options2 /\
    let w' := fst (run fileNames options1 (fst second)) in
    property_of w' options1 "listEmittedFiles" = Some (ts.VBool true) /\
    heap w' !! options2 = Some defaultTypescriptConfig.
Proof.
  intros Hmissing first second. subst first second.
  rewrite (getTypescriptConfig_missing cwd tsconfigFilePath logger w Hmissing). cbn [fst snd].
  rewrite (getTypescriptConfig_missing cwd tsconfigFilePath logger _ Hmissing).
  cbn [fst snd heap trace].
  exists (length (heap w)), (length (heap w ++ [defaultTypescriptConfig])).
  split; [reflexivity|]. split; [reflexivity|].
  rewrite List.length_app. cbn [length]. split; [lia|].
  set (w2 := {| heap := (heap w ++ [defaultTypescriptConfig]) ++ [defaultTypescriptConfig];
                trace := _ |}).
  assert (Hlive : heap w2 !! length (heap w) = Some defaultTypescriptConfig).
  { subst w2. cbn [heap]. rewrite <- app_assoc. rewrite lookup_app_r by lia.
    rewrite Nat.sub_diag. reflexivity. }
  rewrite (run_run fileNames (length (heap w)) defaultTypescriptConfig w2 Hlive). cbv zeta.
  assert (Hbound : (length (heap w) < length (heap w2))%nat)
    by (eapply lookup_lt_Some; eassumption).
  destruct (ts.emitSkipped _); unfold property_of; cbn [fst heap];
    rewrite list_lookup_insert_eq by assumption;
    (split; [apply lookup_insert_eq|]);
    rewrite list_lookup_insert_ne by lia; subst w2; cbn [heap];
    rewrite lookup_app_r by (rewrite List.length_app; cbn [length]; lia);
    rewrite List.length_app; cbn [length];
    replace (length (heap w) + 1 - (length (heap w) + 1))%nat with 0%nat by lia;
    reflexivity.
Qed.

(** X19. Whatever [getTypescriptConfig] finds and however it ends, the
    objects that were in the store are still there, unchanged: it only
    adds to the store. *)
Theorem getTypescriptConfig_keeps_the_store (cwd : string) (tsconfigFilePath : option string)
    (logger : option Logger) (w : World) :
  exists added,
    heap (fst (getTypescriptConfig cwd tsconfigFilePath logger w)) = heap w ++ added.
Proof.
  unfold getTypescriptConfig. cbv zeta.
  set (configFilePath := path_join cwd (default "tsconfig.json" tsconfigFilePath)).
  unfold bind at 1. rewrite fse_existsSync_run.
  destruct (disk_exists configFilePath).
  2:{ exists [defaultTypescriptConfig]. reflexivity. }
  unfold bind at 1. unfold fse_readFileSync. unfold bind at 1.
  rewrite emit_event_run, after_after.
  destruct (disk_read configFilePath) as [e|text]; cbn [of_result ret throw].
  { exists []. rewrite app_nil_r. reflexivity. }
  destruct (ts.error (parseConfigFileTextToJson configFilePath text)) as [d|].
  { exists []. rewrite app_nil_r. unfold bind.
    destruct (JSON_stringify d); reflexivity. }
  set (configParseResult := parseJsonConfigFileContent _ _).
  unfold bind at 1. rewrite new_object_run. unfold after. cbn [heap trace].
  destruct (0 <? length (ts.errors configParseResult))%nat.
  { eexists. unfold bind.
    destruct (JSON_stringify_all (ts.errors configParseResult)); reflexivity. }
  destruct logger as [l|].
  - unfold bind at 1. rewrite log_run. unfold after. cbn [heap trace].
    unfold bind at 1. rewrite read_object_new.
    unfold bind at 1.
    destruct (rootDir_differs (ts.options configParseResult !! "rootDir") cwd)
      as [e|differs]; cbn [of_result ret throw]; [eexists; reflexivity|].
    destruct differs.
    + unfold bind at 1. rewrite log_run. unfold after. cbn [heap trace].
      unfold bind. rewrite set_property_new. eexists. reflexivity.
    + unfold bind at 1. cbn [ret].
      unfold bind. rewrite set_property_new. eexists. reflexivity.
  - unfold bind at 1. cbn [ret].
    unfold bind at 1. rewrite read_object_new.
    unfold bind at 1.
    destruct (rootDir_differs (ts.options configParseResult !! "rootDir") cwd)
      as [e|differs]; cbn [of_result ret throw]; [eexists; reflexivity|].
    unfold bind at 1. cbn [ret].
    unfold bind. rewrite set_property_new. eexists. reflexivity.
Qed.

End ConfigMore.

Section ConfigMoreExamples.

Lemma config_read_and_parse_errors_witness :
  getTypescriptConfig (host := Fixture.unreadable_config_project)
      (compiler := Fixture.configured_compiler) "/proj" None (Some logger_object)
      Fixture.empty_world =
    (after Fixture.empty_world
       [fse_existsSync_call "/proj/tsconfig.json"; fse_readFileSync_call "/proj/tsconfig.json"],
     inl (SystemError "EISDIR")) /\
  getTypescriptConfig (host := Fixture.configured_project)
      (compiler := Fixture.unparsable_config_compiler) "/proj" None (Some logger_object)
      Fixture.empty_world =
    (after Fixture.empty_world
       [fse_existsSync_call "/proj/tsconfig.json"; fse_readFileSync_call "/proj/tsconfig.json"],
     inl (TypeError "Converting circular structure to JSON")) /\
  getTypescriptConfig (host := Fixture.configured_project)
      (compiler := Fixture.unparsable_without_file_compiler) "/proj" None (Some logger_object)
      Fixture.empty_world =
    (after Fixture.empty_world
       [fse_existsSync_call "/proj/tsconfig.json"; fse_readFileSync_call "/proj/tsconfig.json"],
     inl (ConfigParseError
            (Fixture.written_diagnostic (Fixture.global_diagnostic "'}' expected.")))).
Proof.
  split; [|split].
  - apply (config_read_and_parse_errors (host := Fixture.unreadable_config_project)
             (compiler := Fixture.configured_compiler) "/proj" None (Some logger_object)
             Fixture.empty_world eq_refl).
    reflexivity.
  - apply (proj2 (config_read_and_parse_errors (host := Fixture.configured_project)
                    (compiler := Fixture.unparsable_config_compiler) "/proj" None
                    (Some logger_object) Fixture.empty_world eq_refl) "{ }"
             Fixture.syntax_diagnostic); reflexivity.
  - apply (proj2 (config_read_and_parse_errors (host := Fixture.configured_project)
                    (compiler := Fixture.unparsable_without_file_compiler) "/proj" None
                    (Some logger_object) Fixture.empty_world eq_refl) "{ }"
             (Fixture.global_diagnostic "'}' expected.")); reflexivity.
Defined.

Lemma config_validation_errors_witness :
  snd (getTypescriptConfig (host := Fixture.configured_project)
         (compiler := Fixture.invalid_config_compiler) "/proj" None (Some logger_object)
         (Fixture.world_with defaultTypescriptConfig)) =
    inl (ConfigValidationError
           ("[" +:+ Fixture.written_diagnostic (Fixture.global_diagnostic "unknown option")
            +:+ "," +:+ Fixture.written_diagnostic (Fixture.global_diagnostic "bad target")
            +:+ "]")) /\
  snd (getTypescriptConfig (host := Fixture.configured_project)
         (compiler := Fixture.invalid_extends_compiler) "/proj" None (Some logger_object)
         (Fixture.world_with defaultTypescriptConfig)) =
    inl (TypeError "Converting circular structure to JSON").
Proof.
  split.
  - apply (config_validation_errors (host := Fixture.configured_project)
             (compiler := Fixture.invalid_config_compiler) "/proj" None (Some logger_object)
             (Fixture.world_with defaultTypescriptConfig) "{ }" eq_refl eq_refl eq_refl).
    discriminate.
  - apply (config_validation_errors (host := Fixture.configured_project)
             (compiler := Fixture.invalid_extends_compiler) "/proj" None (Some logger_object)
             (Fixture.world_with defaultTypescriptConfig) "{ }" eq_refl eq_refl eq_refl).
    discriminate.
Defined.

Lemma config_then_run_witness :
  exists options,
    snd (getTypescriptConfig (host := Fixture.configured_project)
           (compiler := Fixture.configured_compiler) "/proj" None None
           Fixture.empty_world) = inr options /\
    property_of
      (fst (run (compiler := Fixture.configured_compiler) ["src/app.ts"] options
              (fst (getTypescriptConfig (host := Fixture.configured_project)
                      (compiler := Fixture.configured_compiler) "/proj" None None
                      Fixture.empty_world))))
      options "strict" = Some (ts.VBool true).
Proof.
  destruct (config_then_run (host := Fixture.configured_project)
              (compiler := Fixture.configured_compiler) "/proj" None None
              Fixture.empty_world "{ }" ["src/app.ts"] eq_refl eq_refl eq_refl eq_refl)
    as (options & Hreturn & _ & _ & Hothers).
  - intros v Hv. vm_compute in Hv. injection Hv as <-. eexists. reflexivity.
  - exists options. split; [exact Hreturn|].
    rewrite Hothers; [vm_compute; reflexivity | discriminate | discriminate].
Defined.

Lemma default_configs_are_separate_witness :
  exists options1 options2,
    snd (getTypescriptConfig (host := Fixture.empty_project)
           (compiler := Fixture.compiling Fixture.clean_program) "/proj" None None
           Fixture.empty_world) = inr options1 /\
    snd (getTypescriptConfig (host := Fixture.empty_project)
           (compiler := Fixture.compiling Fixture.clean_program) "/proj" None None
           (fst (getTypescriptConfig (host := Fixture.empty_project)
                   (compiler := Fixture.compiling Fixture.clean_program) "/proj" None None
                   Fixture.empty_world))) = inr options2 /\
    options1 <> options2.
Proof.
  destruct (default_configs_are_separate (host := Fixture.empty_project)
              (compiler := Fixture.compiling Fixture.clean_program) "/proj" None None
              Fixture.empty_world ["src/app.ts"] eq_refl)
    as (options1 & options2 & Hfirst & Hsecond & Hdistinct & _).
  exists options1, options2. auto.
Defined.

End ConfigMoreExamples.
